(** * pswalker: the two-mirror geometry solver, IterWalker and the Skywalker dispatcher

    A shallow embedding of [pswalker/walker/iterwalk.py] and
    [pswalker/skywalker.py].

    - Numbers are IEEE 754 binary64 values ([float]): Python floats and the
      numpy scalars that [numpy.sqrt] returns.  Sums, differences, products
      and [numpy.sqrt] are IEEE, and so is the quotient of the closed
      forms, whose numerator is a numpy scalar: a quotient by zero is an
      infinity or a NaN and the square root of a negative number is a NaN.
    - The power [x**2] is the runtime's: the C library computes it, and on
      a Python float an overflow raises OverflowError.  It is a parameter
      [pow2] of the model, which may raise.
    - The flags [t] of the solves and [tan] of the walker are booleans.
    - Methods run in a state-and-exception monad.  An exception keeps the
      state reached so far, as a Python exception keeps the mutations made
      before it.
    - Every attribute access on a device object is recorded in a log, so
      that statements about device reads and writes can be made. *)

From Stdlib Require Import Floats ZArith QArith Field List String.
Import ListNotations.

#[local] Set Warnings "-inexact-float".

(** ** Python values, exceptions and the execution monad *)

Module Py.

Inductive exn : Type :=
| NameError (name : string)
| TypeError
| ValueError
| OverflowError
| ImportError
| NotImplementedError
| CNCException
| SolverError.

(** The values a caller may pass where the code tests identity or
    truthiness. *)
Inductive value : Type :=
| VNone
| VBool (b : bool)
| VInt (z : Z)
| VFloat (x : float)
| VStr (s : string)
| VBoundMethod (name : string).

(** [v is True] *)
Definition is_True (v : value) : bool :=
  match v with
  | VBool true => true
  | _ => false
  end.

(** [bool(v)] *)
Definition truthy (v : value) : bool :=
  match v with
  | VNone => false
  | VBool b => b
  | VInt z => negb (Z.eqb z 0)
  | VFloat x => negb (PrimFloat.eqb x 0%float)
  | VStr s => negb (String.eqb s EmptyString)
  | VBoundMethod _ => true
  end.

Inductive res (A : Type) : Type :=
| Ok (a : A)
| Raise (e : exn)
| OutOfFuel.
Arguments Ok {A} a.
Arguments Raise {A} e.
Arguments OutOfFuel {A}.

(** The value of an outcome, [d] when there is none. *)
Definition value_or {A} (d : A) (r : res A) : A :=
  match r with
  | Ok a => a
  | _ => d
  end.

(** Sequencing of two computations that may raise. *)
Definition and_then {A B} (r : res A) (k : A -> res B) : res B :=
  match r with
  | Ok a => k a
  | Raise e => Raise e
  | OutOfFuel => OutOfFuel
  end.

Definition M (S A : Type) : Type := S -> res A * S.

Definition ret {S A} (a : A) : M S A := fun s => (Ok a, s).

Definition bind {S A B} (m : M S A) (k : A -> M S B) : M S B :=
  fun s =>
    match m s with
    | (Ok a, s') => k a s'
    | (Raise e, s') => (Raise e, s')
    | (OutOfFuel, s') => (OutOfFuel, s')
    end.

Definition raise {S A} (e : exn) : M S A := fun s => (Raise e, s).

Definition lift {S A} (r : res A) : M S A := fun s => (r, s).

Definition gets {S A} (f : S -> A) : M S A := fun s => (Ok (f s), s).

Definition modify {S} (f : S -> S) : M S unit := fun s => (Ok tt, f s).

(** [for x in l: body(x)] *)
Fixpoint for_each {S A} (l : list A) (body : A -> M S unit) : M S unit :=
  match l with
  | [] => ret tt
  | x :: l' => bind (body x) (fun _ => for_each l' body)
  end.

(** [range(n)]: empty when [n <= 0]. *)
Definition range (n : Z) : list Z :=
  map Z.of_nat (seq 0 (Z.to_nat n)).

(** [while cond: body], with fuel for the iterations. *)
Fixpoint while {S} (fuel : nat) (cond : M S bool) (body : M S unit)
  : M S unit :=
  match fuel with
  | O => fun s => (OutOfFuel, s)
  | S fuel' =>
      bind cond (fun c =>
        if c then bind body (fun _ => while fuel' cond body)
        else ret tt)
  end.

End Py.

Declare Scope py_scope.
Delimit Scope py_scope with py.
Notation "x <- m ;; k" := (Py.bind m (fun x => k))
  (at level 61, m at next level, right associativity) : py_scope.
Notation "m ;; k" := (Py.bind m (fun _ => k))
  (at level 61, right associativity) : py_scope.
Notation "x <~ r ;; k" := (Py.and_then r (fun x => k))
  (at level 61, r at next level, right associativity) : py_scope.

(** ** The polynomials of the closed forms

    The sums of products that [alpha1] and [alpha2] are written with, over
    any numbers with a sum, a difference, a product, an opposite and the
    integer constants: the binary64 numbers of the code, and the rationals
    where the algebra behind the formulas is stated.  The squares the
    source writes [v**2] are arguments of their own, [a2s] for [a2**2] and
    so on. *)

Module Poly.

Section Formulas.

Variable T : Type.
Variables add sub mul : T -> T -> T.
Variable opp : T -> T.
Variable lit : Z -> T.

Declare Scope poly_scope.
Notation "x + y" := (add x y) : poly_scope.
Notation "x - y" := (sub x y) : poly_scope.
Notation "x * y" := (mul x y) : poly_scope.
Notation "- x" := (opp x) : poly_scope.
Local Open Scope Z_scope.
Local Open Scope poly_scope.

(** The part of the numerator of [alpha1] before the square root. *)
Definition alpha1_B (x0 xp0 a2 d2 d4 d5 m1hdx m2hdx x : T) : T :=
  -a2*d2 + lit 4*a2*d4 - lit 3*a2*d5 + lit 2*d4*xp0 - lit 2*d5*xp0
  - m2hdx + x.

(** The argument of the square root in [alpha1]. *)
Definition alpha1_D (x0 xp0 a2 d2 d4 d5 m1hdx m2hdx x : T)
           (a2s d2s d4s d5s m2hdxs xs : T) : T :=
  a2s*d2s - lit 8*a2s*d2*d4 + lit 6*a2s*d2*d5 +
  lit 8*a2s*d4s - lit 8*a2s*d4*d5 + a2s*d5s -
  lit 4*a2*d2*d4*xp0 + lit 4*a2*d2*d5*xp0 + lit 2*a2*d2*m2hdx -
  lit 2*a2*d2*x + lit 8*a2*d4*m1hdx - lit 8*a2*d4*m2hdx + lit 4*a2*d4*x -
  lit 4*a2*d4*x0 - lit 8*a2*d5*m1hdx + lit 6*a2*d5*m2hdx - lit 2*a2*d5*x +
  lit 4*a2*d5*x0 + m2hdxs - lit 2*m2hdx*x + xs.

(** The part of the numerator of [alpha2] before the square root. *)
Definition alpha2_B (x0 xp0 a1 d2 d4 d6 m1hdx m2hdx x : T) : T :=
  lit (-2)*a1*d2 + lit 8*a1*d4 - lit 6*a1*d6 - lit 4*d4*xp0 + lit 3*d6*xp0
  + lit 2*m1hdx - x - x0.

(** The argument of the square root in [alpha2]. *)
Definition alpha2_D (x0 xp0 a1 d2 d4 d6 m1hdx m2hdx x : T)
           (a1s d2s d4s d6s xp0s m1hdxs xs x0s : T) : T :=
  lit 4*a1s*d2s - lit 32*a1s*d2*d4 + lit 24*a1s*d2*d6 +
  lit 32*a1s*d4s - lit 32*a1s*d4*d6 + lit 4*a1s*d6s +
  lit 16*a1*d2*d4*xp0 - lit 12*a1*d2*d6*xp0 - lit 8*a1*d2*m1hdx +
  lit 4*a1*d2*x + lit 4*a1*d2*x0 - lit 32*a1*d4s*xp0 +
  lit 32*a1*d4*d6*xp0 + lit 32*a1*d4*m1hdx - lit 16*a1*d4*m2hdx -
  lit 16*a1*d4*x0 - lit 4*a1*d6s*xp0 - lit 24*a1*d6*m1hdx +
  lit 16*a1*d6*m2hdx - lit 4*a1*d6*x + lit 12*a1*d6*x0 + lit 8*d4s*xp0s -
  lit 8*d4*d6*xp0s - lit 16*d4*m1hdx*xp0 + lit 8*d4*m2hdx*xp0 +
  lit 8*d4*x0*xp0 + d6s*xp0s + lit 12*d6*m1hdx*xp0 -
  lit 8*d6*m2hdx*xp0 + lit 2*d6*x*xp0 - lit 6*d6*x0*xp0 + lit 4*m1hdxs -
  lit 4*m1hdx*x - lit 4*m1hdx*x0 + xs + lit 2*x*x0 + x0s.

(** The constant terms of the two quadratics: the angle [alpha1] solves
    for is a root of [4*(d4 - d5)*a**2 - 2*B*a + K = 0], and likewise for
    [alpha2] with [d6].  They are not in the source, which has the roots
    only. *)
Definition alpha1_K (x0 xp0 a2 d2 d4 d5 m1hdx m2hdx x : T) : T :=
  lit 4*a2*d4*xp0 - lit 3*a2*d5*xp0 - lit 2*a2*m1hdx + a2*x + a2*x0
  + lit 2*a2*a2*(d4 - d5) + xp0*xp0*(d4 - d5) - m2hdx*xp0 + x*xp0.

Definition alpha2_K (x0 xp0 a1 d2 d4 d6 m1hdx m2hdx x : T) : T :=
  lit 8*a1*d6*xp0 - lit 8*a1*d4*xp0 + lit 4*a1*m2hdx - lit 4*a1*x
  + lit 8*a1*a1*(d4 - d6) + lit 2*xp0*xp0*(d4 - d6) - lit 2*m2hdx*xp0
  + lit 2*x*xp0.

End Formulas.

End Poly.

(** ** GeometryModel: [alpha1] and [alpha2] of iterwalk.py *)

Module Geometry.

Local Open Scope float_scope.
Local Open Scope py_scope.

(** An integer constant of the source as the binary64 number it becomes in
    a product with one. *)
Definition of_int (z : Z) : float :=
  match z with
  | Z0 => 0
  | Zpos _ => PrimFloat.of_uint63 (Uint63.of_Z z)
  | Zneg k => - PrimFloat.of_uint63 (Uint63.of_Z (Zpos k))
  end.

(** The part of the numerator of [alpha1] before the square root. *)
Definition alpha1_B (x0 xp0 a2 d2 d4 d5 m1hdx m2hdx x : float) : float :=
  Poly.alpha1_B float PrimFloat.add PrimFloat.sub PrimFloat.mul PrimFloat.opp
                of_int x0 xp0 a2 d2 d4 d5 m1hdx m2hdx x.

(** The argument of the square root in [alpha1], from the six squares. *)
Definition alpha1_D (x0 xp0 a2 d2 d4 d5 m1hdx m2hdx x : float)
           (a2s d2s d4s d5s m2hdxs xs : float) : float :=
  Poly.alpha1_D float PrimFloat.add PrimFloat.sub PrimFloat.mul
                of_int x0 xp0 a2 d2 d4 d5 m1hdx m2hdx x
                a2s d2s d4s d5s m2hdxs xs.

(** The part of the numerator of [alpha2] before the square root. *)
Definition alpha2_B (x0 xp0 a1 d2 d4 d6 m1hdx m2hdx x : float) : float :=
  Poly.alpha2_B float PrimFloat.add PrimFloat.sub PrimFloat.mul
                of_int x0 xp0 a1 d2 d4 d6 m1hdx m2hdx x.

(** The argument of the square root in [alpha2], from the eight squares. *)
Definition alpha2_D (x0 xp0 a1 d2 d4 d6 m1hdx m2hdx x : float)
           (a1s d2s d4s d6s xp0s m1hdxs xs x0s : float) : float :=
  Poly.alpha2_D float PrimFloat.add PrimFloat.sub PrimFloat.mul
                of_int x0 xp0 a1 d2 d4 d6 m1hdx m2hdx x
                a1s d2s d4s d6s xp0s m1hdxs xs x0s.

(** The two roots of a quadratic as the specification names them: the
    branch with the negative square root and the branch with the positive
    one, over a numerator part [B], a discriminant [D] and a denominator
    [4*den]. *)
Definition neg_sqrt_root (B D den : float) : float := (B - sqrt D) / (4*den).
Definition pos_sqrt_root (B D den : float) : float := (B + sqrt D) / (4*den).

Section Runtime.

(** The power [x**2] as the runtime computes it: it may raise. *)
Variable pow2 : float -> Py.res float.

(** The symbolic-algebra library is external: its tangent and its
    numeric root finder [nsolve(f, seed)], which either returns a root
    or raises. *)
Variable tan : float -> float.
Variable nsolve : (float -> float) -> float -> Py.res float.

(** [alpha1(..., t=False)].  Python evaluates the numerator from left to
    right: the squares are taken inside the argument of the square root,
    and each is bound here where the source first writes it. *)
Definition alpha1_closed (x0 xp0 a2 d2 d4 d5 m1hdx m2hdx x : float)
  : Py.res float :=
  a2s <~ pow2 a2 ;;
  d2s <~ pow2 d2 ;;
  d4s <~ pow2 d4 ;;
  d5s <~ pow2 d5 ;;
  m2hdxs <~ pow2 m2hdx ;;
  xs <~ pow2 x ;;
  Py.Ok ((alpha1_B x0 xp0 a2 d2 d4 d5 m1hdx m2hdx x
          - sqrt (alpha1_D x0 xp0 a2 d2 d4 d5 m1hdx m2hdx x
                           a2s d2s d4s d5s m2hdxs xs))
         / (4*(d4 - d5))).

(** [alpha2(..., t=False)] *)
Definition alpha2_closed (x0 xp0 a1 d2 d4 d6 m1hdx m2hdx x : float)
  : Py.res float :=
  a1s <~ pow2 a1 ;;
  d2s <~ pow2 d2 ;;
  d4s <~ pow2 d4 ;;
  d6s <~ pow2 d6 ;;
  xp0s <~ pow2 xp0 ;;
  m1hdxs <~ pow2 m1hdx ;;
  xs <~ pow2 x ;;
  x0s <~ pow2 x0 ;;
  Py.Ok ((alpha2_B x0 xp0 a1 d2 d4 d6 m1hdx m2hdx x
          + sqrt (alpha2_D x0 xp0 a1 d2 d4 d6 m1hdx m2hdx x
                           a1s d2s d4s d6s xp0s m1hdxs xs x0s))
         / (4*(d4 - d6))).

(** The expression handed to [nsolve] in [alpha1(..., t=True)], as a
    function of the unknown [a1]. *)
Definition alpha1_residual (x0 xp0 a2 d2 d4 d5 m1hdx m2hdx x : float)
           (a1 : float) : float :=
  (d2*tan a1*tan a2*tan xp0 - d2*tan a1*tan a2*tan (2*a1 - xp0) +
   d4*tan a1*tan a2*tan (2*a1 - xp0) -
   d4*tan a2*tan xp0*tan (2*a1 - xp0) - m1hdx*tan a2*tan xp0 +
   m1hdx*tan a2*tan (2*a1 - xp0) - m2hdx*tan a1*tan (2*a1 - xp0) +
   m2hdx*tan xp0*tan (2*a1 - xp0) + x0*tan a1*tan a2 -
   x0*tan a2*tan (2*a1 - xp0) + (-d4 + d5)*(
     tan a1*tan a2 - tan a1*tan (2*a1 - xp0) - tan a2*tan xp0 +
     tan xp0*tan (2*a1 - xp0))*tan (-2*a1 + 2*a2 + xp0)) /
  (tan a1*tan a2 - tan a1*tan (2*a1 - xp0) - tan a2*tan xp0 +
   tan xp0*tan (2*a1 - xp0)) - x.

(** The expression handed to [nsolve] in [alpha2(..., t=True)], as a
    function of the unknown [a2]. *)
Definition alpha2_residual (x0 xp0 a1 d2 d4 d6 m1hdx m2hdx x : float)
           (a2 : float) : float :=
  (d2*tan a1*tan a2*tan xp0 - d2*tan a1*tan a2*tan (2*a1 - xp0) +
   d4*tan a1*tan a2*tan (2*a1 - xp0) -
   d4*tan a2*tan xp0*tan (2*a1 - xp0) - m1hdx*tan a2*tan xp0 +
   m1hdx*tan a2*tan (2*a1 - xp0) - m2hdx*tan a1*tan (2*a1 - xp0) +
   m2hdx*tan xp0*tan (2*a1 - xp0) + x0*tan a1*tan a2 -
   x0*tan a2*tan (2*a1 - xp0) + (-d4 + d6)*(
     tan a1*tan a2 - tan a1*tan (2*a1 - xp0) - tan a2*tan xp0 +
     tan xp0*tan (2*a1 - xp0))*tan (-2*a1 + 2*a2 + xp0)) /
  (tan a1*tan a2 - tan a1*tan (2*a1 - xp0) - tan a2*tan xp0 +
   tan xp0*tan (2*a1 - xp0)) - x.

(** The seed of both root finds. *)
Definition seed : float := 0.0014.

Definition alpha1 (x0 xp0 a2 d2 d4 d5 m1hdx m2hdx x : float) (t : bool)
  : Py.res float :=
  if t then
    nsolve (alpha1_residual x0 xp0 a2 d2 d4 d5 m1hdx m2hdx x) seed
  else
    alpha1_closed x0 xp0 a2 d2 d4 d5 m1hdx m2hdx x.

Definition alpha2 (x0 xp0 a1 d2 d4 d6 m1hdx m2hdx x : float) (t : bool)
  : Py.res float :=
  if t then
    nsolve (alpha2_residual x0 xp0 a1 d2 d4 d6 m1hdx m2hdx x) seed
  else
    alpha2_closed x0 xp0 a1 d2 d4 d6 m1hdx m2hdx x.

End Runtime.


End Geometry.

(** ** IterWalker of iterwalk.py *)

Module IterWalk.

Import Py.
Local Open Scope py_scope.

(** *** Devices

    The source, the two mirrors and the two imagers are objects whose
    attributes the walker reads ([self.mirror_1.z]) and, for the mirror
    angles, assigns ([self.mirror_1.alpha = ...]). *)

Record Source : Type := { s_x : float; s_xp : float }.

Record Mirror : Type := { m_x : float; m_z : float; m_alpha : float }.

Record Imager : Type :=
  { i_x : float; i_z : float; i_image_xsz : float; i_mppix : float }.

Record devices : Type :=
  { source : Source;
    mirror_1 : Mirror;
    mirror_2 : Mirror;
    imager_1 : Imager;
    imager_2 : Imager }.

Inductive device : Type := TheSource | Mirror1 | Mirror2 | Imager1 | Imager2.

Inductive attribute : Type := AX | AXp | AZ | AAlpha | AImageXsz | AMppix.

(** One access to a device attribute. *)
Inductive event : Type :=
| Get (d : device) (a : attribute)
| Put (d : device) (a : attribute) (v : float).

Definition is_put (e : event) : bool :=
  match e with
  | Put _ _ _ => true
  | Get _ _ => false
  end.

Definition set_alpha (m : Mirror) (v : float) : Mirror :=
  {| m_x := m_x m; m_z := m_z m; m_alpha := v |}.

Definition set_mirror_1 (ds : devices) (m : Mirror) : devices :=
  {| source := source ds; mirror_1 := m; mirror_2 := mirror_2 ds;
     imager_1 := imager_1 ds; imager_2 := imager_2 ds |}.

Definition set_mirror_2 (ds : devices) (m : Mirror) : devices :=
  {| source := source ds; mirror_1 := mirror_1 ds; mirror_2 := m;
     imager_1 := imager_1 ds; imager_2 := imager_2 ds |}.

(** *** The walker object *)

Record IterWalker : Type :=
  { p1 : option float;       (* None is Python's None *)
    p2 : option float;
    tan : bool;
    max_n : Z;
    _alpha_1 : float;
    _alpha_2 : float }.

Definition with_p1 (w : IterWalker) (v : option float) : IterWalker :=
  {| p1 := v; p2 := p2 w; tan := tan w; max_n := max_n w;
     _alpha_1 := _alpha_1 w; _alpha_2 := _alpha_2 w |}.

Definition with_p2 (w : IterWalker) (v : option float) : IterWalker :=
  {| p1 := p1 w; p2 := v; tan := tan w; max_n := max_n w;
     _alpha_1 := _alpha_1 w; _alpha_2 := _alpha_2 w |}.

Definition with_alpha_1 (w : IterWalker) (v : float) : IterWalker :=
  {| p1 := p1 w; p2 := p2 w; tan := tan w; max_n := max_n w;
     _alpha_1 := v; _alpha_2 := _alpha_2 w |}.

Definition with_alpha_2 (w : IterWalker) (v : float) : IterWalker :=
  {| p1 := p1 w; p2 := p2 w; tan := tan w; max_n := max_n w;
     _alpha_1 := _alpha_1 w; _alpha_2 := v |}.

(** The walker, the devices it holds handles to, and the log of device
    accesses, oldest first. *)
Record state : Type :=
  { self : IterWalker;
    devs : devices;
    log : list event }.

Definition read (d : device) (a : attribute) (proj : devices -> float)
  : M state float :=
  fun st =>
    (Ok (proj (devs st)),
     {| self := self st; devs := devs st; log := log st ++ [Get d a] |}).

Definition write (d : device) (a : attribute) (v : float)
           (upd : devices -> devices) : M state unit :=
  fun st =>
    (Ok tt,
     {| self := self st; devs := upd (devs st);
        log := log st ++ [Put d a v] |}).

Definition attr {A} (f : IterWalker -> A) : M state A :=
  gets (fun st => f (self st)).

Definition assign (f : IterWalker -> IterWalker) : M state unit :=
  modify (fun st => {| self := f (self st); devs := devs st; log := log st |}).

(** The keyword arguments [__init__] looks up. *)
Record kwargs : Type :=
  { kw_p1 : option float;
    kw_p2 : option float;
    kw_tan : option bool;
    kw_max_n : option Z }.

Definition get {A} (o : option A) (default : A) : A :=
  match o with
  | Some v => v
  | None => default
  end.

(** The constructor of [IterWalker], from the five devices and its
    keyword arguments: the angle estimates are read from the mirrors
    here. *)
Definition __init__ (ds : devices) (kw : kwargs) : state :=
  {| self := {| p1 := kw_p1 kw;
                p2 := kw_p2 kw;
                tan := get (kw_tan kw) false;
                max_n := get (kw_max_n kw) 200%Z;
                _alpha_1 := m_alpha (mirror_1 ds);
                _alpha_2 := m_alpha (mirror_2 ds) |};
     devs := ds;
     log := [Get Mirror1 AAlpha; Get Mirror2 AAlpha] |}.

Section Methods.

Variable sp_pow2 : float -> res float.
Variable sp_tan : float -> float.
Variable sp_nsolve : (float -> float) -> float -> res float.

Local Open Scope float_scope.

(** [p - xsz/2 + 1] where [p] may be None. *)
Definition pixel_offset (p : option float) (xsz : float) : M state float :=
  match p with
  | Some v => ret (v - xsz/2 + 1)
  | None => raise TypeError
  end.

Definition goal_x_1 : M state float :=
  ix <- read Imager1 AX (fun ds => i_x (imager_1 ds)) ;;
  p <- attr p1 ;;
  xsz <- read Imager1 AImageXsz (fun ds => i_image_xsz (imager_1 ds)) ;;
  off <- pixel_offset p xsz ;;
  mppix <- read Imager1 AMppix (fun ds => i_mppix (imager_1 ds)) ;;
  ret (ix + off*mppix).

Definition goal_x_2 : M state float :=
  ix <- read Imager2 AX (fun ds => i_x (imager_2 ds)) ;;
  p <- attr p2 ;;
  xsz <- read Imager2 AImageXsz (fun ds => i_image_xsz (imager_2 ds)) ;;
  off <- pixel_offset p xsz ;;
  mppix <- read Imager2 AMppix (fun ds => i_mppix (imager_2 ds)) ;;
  ret (ix + off*mppix).

Definition _alpha_1_calc : M state float :=
  x0 <- read TheSource AX (fun ds => s_x (source ds)) ;;
  xp0 <- read TheSource AXp (fun ds => s_xp (source ds)) ;;
  a2 <- attr _alpha_2 ;;
  d2 <- read Mirror1 AZ (fun ds => m_z (mirror_1 ds)) ;;
  d4 <- read Mirror2 AZ (fun ds => m_z (mirror_2 ds)) ;;
  d5 <- read Imager1 AZ (fun ds => i_z (imager_1 ds)) ;;
  m1hdx <- read Mirror1 AX (fun ds => m_x (mirror_1 ds)) ;;
  m2hdx <- read Mirror2 AX (fun ds => m_x (mirror_2 ds)) ;;
  x <- goal_x_1 ;;
  t <- attr tan ;;
  lift (Geometry.alpha1 sp_pow2 sp_tan sp_nsolve
                       x0 xp0 a2 d2 d4 d5 m1hdx m2hdx x t).

Definition _alpha_2_calc : M state float :=
  x0 <- read TheSource AX (fun ds => s_x (source ds)) ;;
  xp0 <- read TheSource AXp (fun ds => s_xp (source ds)) ;;
  a1 <- attr _alpha_1 ;;
  d2 <- read Mirror1 AZ (fun ds => m_z (mirror_1 ds)) ;;
  d4 <- read Mirror2 AZ (fun ds => m_z (mirror_2 ds)) ;;
  d6 <- read Imager2 AZ (fun ds => i_z (imager_2 ds)) ;;
  m1hdx <- read Mirror1 AX (fun ds => m_x (mirror_1 ds)) ;;
  m2hdx <- read Mirror2 AX (fun ds => m_x (mirror_2 ds)) ;;
  x <- goal_x_2 ;;
  t <- attr tan ;;
  lift (Geometry.alpha2 sp_pow2 sp_tan sp_nsolve
                       x0 xp0 a1 d2 d4 d6 m1hdx m2hdx x t).

Definition _move_mirrors (alpha_1 alpha_2 : float) : M state unit :=
  write Mirror1 AAlpha alpha_1
        (fun ds => set_mirror_1 ds (set_alpha (mirror_1 ds) alpha_1)) ;;
  write Mirror2 AAlpha alpha_2
        (fun ds => set_mirror_2 ds (set_alpha (mirror_2 ds) alpha_2)).

Definition step : M state (float * float) :=
  a1 <- _alpha_1_calc ;;
  a2 <- _alpha_2_calc ;;
  ret (a1, a2).

(** The body of the loop of [align]. *)
Definition align_body (i : Z) : M state unit :=
  a1 <- _alpha_1_calc ;;
  assign (fun w => with_alpha_1 w a1) ;;
  a2 <- _alpha_2_calc ;;
  assign (fun w => with_alpha_2 w a2).

Definition align (p1' p2' : option float) (move : value)
  : M state (float * float) :=
  (match p1' with
   | Some _ => assign (fun w => with_p1 w p1')
   | None => ret tt
   end) ;;
  (match p2' with
   | Some _ => assign (fun w => with_p2 w p2')
   | None => ret tt
   end) ;;
  n <- attr max_n ;;
  for_each (range n) align_body ;;
  (if is_True move then
     a1 <- attr _alpha_1 ;;
     a2 <- attr _alpha_2 ;;
     _move_mirrors a1 a2
   else ret tt) ;;
  a1 <- attr _alpha_1 ;;
  a2 <- attr _alpha_2 ;;
  ret (a1, a2).

End Methods.

End IterWalk.

(** ** Skywalker of skywalker.py *)

Module Skywalker.

Import Py.
Local Open Scope py_scope.
Local Open Scope string_scope.

(** The collaborators ([Monitor], [Walker], [ModelBuilder], the model
    walker, the iter walker) live outside this module; an instance is
    known here by its class only. *)
Inductive object : Type := Instance (class : string).

(** A fitted model with the goal points [_set_goal_points] stores on it. *)
Record Model : Type :=
  { model_id : string;
    model_p1 : float;
    model_p2 : float }.

Record Skywalker : Type :=
  { monitor : object;
    walker : object;
    model_builder : option object;
    model : option Model;
    iter_walker : option object;
    model_walker : option object;
    load_model : option string;
    p1 : float;
    p2 : float }.

(** Calls that reach the devices or the collaborators that drive them. *)
Inductive event : Type :=
| ReadCentroids                   (* monitor.current_centroids *)
| IterStep (mirror : nat)         (* iter_walker.step(mirror_<i>=True) *)
| ModelStep (do_move : bool)      (* model_walker.step(do_move=...) *)
| Build                           (* model_builder.build() *)
| ImportModel (name : string).    (* importlib.import_module(...) *)

Definition is_iter_step (e : event) : bool :=
  match e with
  | IterStep _ => true
  | _ => false
  end.

(** The dispatcher, the centroid pair the monitor currently observes, and
    the log of calls, oldest first. *)
Record state : Type :=
  { self : Skywalker;
    current_centroids : float * float;
    log : list event }.

(** A [kwargs] mapping, restricted to the keys the methods look up.  A
    field is [None] when the key is absent. *)
Record kwargs : Type :=
  { kw_monitor : option object;
    kw_walker : option object;
    kw_model_builder : option (option object);
    kw_model : option (option Model);
    kw_iter_walker : option (option object);
    kw_model_walker : option (option object);
    kw_load_model : option (option string);
    kw_p1 : option float;
    kw_p2 : option float }.

Definition no_kwargs : kwargs :=
  {| kw_monitor := None; kw_walker := None; kw_model_builder := None;
     kw_model := None; kw_iter_walker := None; kw_model_walker := None;
     kw_load_model := None; kw_p1 := None; kw_p2 := None |}.

Definition get {A} (o : option A) (default : A) : A :=
  match o with
  | Some v => v
  | None => default
  end.

(** The constructor of [Skywalker], from its keyword arguments. *)
Definition __init__ (kw : kwargs) : Skywalker :=
  let mon := get (kw_monitor kw) (Instance "Monitor") in
  {| monitor := mon;
     walker := get (kw_walker kw) (Instance "Walker");
     model_builder := get (kw_model_builder kw) None;
     model := get (kw_model kw) None;
     iter_walker := get (kw_iter_walker kw) None;
     model_walker := get (kw_model_walker kw) None;
     load_model := get (kw_load_model kw) None;
     p1 := get (kw_p1 kw) 0%float;
     p2 := get (kw_p2 kw) 0%float |}.

(** The names the methods look up in the module's global scope although
    no statement of skywalker.py binds them: [kwargs] (the methods take
    no such parameter), [IterWalker] and [ModelWalker] (never imported).
    A field says what the name is bound to, if anything has bound it. *)
Record globals : Type :=
  { g_kwargs : option kwargs;
    g_IterWalker : bool;
    g_ModelWalker : bool }.

(** The global scope of skywalker.py as the file leaves it. *)
Definition module_globals : globals :=
  {| g_kwargs := None; g_IterWalker := false; g_ModelWalker := false |}.

Definition emit (e : event) : M state unit :=
  modify (fun st => {| self := self st;
                       current_centroids := current_centroids st;
                       log := log st ++ [e] |}).

Definition attr {A} (f : Skywalker -> A) : M state A :=
  gets (fun st => f (self st)).

Definition assign (f : Skywalker -> Skywalker) : M state unit :=
  modify (fun st => {| self := f (self st);
                       current_centroids := current_centroids st;
                       log := log st |}).

Definition with_model_builder (s : Skywalker) (v : option object) :=
  {| monitor := monitor s; walker := walker s; model_builder := v;
     model := model s; iter_walker := iter_walker s;
     model_walker := model_walker s; load_model := load_model s;
     p1 := p1 s; p2 := p2 s |}.

Definition with_model (s : Skywalker) (v : option Model) :=
  {| monitor := monitor s; walker := walker s;
     model_builder := model_builder s;
     model := v; iter_walker := iter_walker s;
     model_walker := model_walker s; load_model := load_model s;
     p1 := p1 s; p2 := p2 s |}.

Definition with_iter_walker (s : Skywalker) (v : option object) :=
  {| monitor := monitor s; walker := walker s;
     model_builder := model_builder s;
     model := model s; iter_walker := v;
     model_walker := model_walker s; load_model := load_model s;
     p1 := p1 s; p2 := p2 s |}.

Definition with_model_walker (s : Skywalker) (v : option object) :=
  {| monitor := monitor s; walker := walker s;
     model_builder := model_builder s;
     model := model s; iter_walker := iter_walker s;
     model_walker := v; load_model := load_model s;
     p1 := p1 s; p2 := p2 s |}.

Definition with_load_model (s : Skywalker) (v : option string) :=
  {| monitor := monitor s; walker := walker s;
     model_builder := model_builder s;
     model := model s; iter_walker := iter_walker s;
     model_walker := model_walker s; load_model := v;
     p1 := p1 s; p2 := p2 s |}.

Definition with_p1 (s : Skywalker) (v : float) :=
  {| monitor := monitor s; walker := walker s;
     model_builder := model_builder s;
     model := model s; iter_walker := iter_walker s;
     model_walker := model_walker s; load_model := load_model s;
     p1 := v; p2 := p2 s |}.

Definition with_p2 (s : Skywalker) (v : float) :=
  {| monitor := monitor s; walker := walker s;
     model_builder := model_builder s;
     model := model s; iter_walker := iter_walker s;
     model_walker := model_walker s; load_model := load_model s;
     p1 := p1 s; p2 := v |}.

(** [bool(a)] for a numpy array of booleans: defined for one element
    only. *)
Definition array_truth (a : list bool) : res bool :=
  match a with
  | [] => Ok false
  | [b] => Ok b
  | _ => Raise ValueError
  end.

(** [c == np.array((p1, p2))]: the element-wise comparison. *)
Definition np_eq (c : float * float) (p1 p2 : float) : list bool :=
  [PrimFloat.eqb (fst c) p1; PrimFloat.eqb (snd c) p2].

(** What the docstring of [_converged] describes: the beam centroids are
    at the positions [p1] and [p2]. *)
Definition centroids_match (st : state) : bool :=
  PrimFloat.eqb (fst (current_centroids st)) (p1 (self st))
  && PrimFloat.eqb (snd (current_centroids st)) (p2 (self st)).

Section Methods.

(** The global scope the methods run in. *)
Variable g : globals.

(** The collaborators' answers: the saved model a name imports to and
    the model the builder builds, each of which may raise. *)
Variable import_model : string -> res Model.
Variable build : res Model.

(** Looking up the global name [kwargs]. *)
Definition global_kwargs : M state kwargs :=
  match g_kwargs g with
  | Some kw => ret kw
  | None => raise (NameError "kwargs")
  end.

(** Evaluating [ModelWalker(self.walker, self.model)]. *)
Definition new_ModelWalker : M state object :=
  if g_ModelWalker g then ret (Instance "ModelWalker")
  else raise (NameError "ModelWalker").

(** Evaluating [IterWalker(self.walker, self.monitor, p1=.., p2=..)]:
    the class of iterwalk.py takes five positional arguments. *)
Definition new_IterWalker : M state object :=
  if g_IterWalker g then raise TypeError
  else raise (NameError "IterWalker").

Definition _converged : M state bool :=
  emit ReadCentroids ;;
  c <- gets current_centroids ;;
  p1 <- attr p1 ;;
  p2 <- attr p2 ;;
  b <- lift (array_truth (np_eq c p1 p2)) ;;
  if b then ret true else ret false.

Definition _modelbuild : M state unit :=
  kw <- global_kwargs ;;
  assign (fun s => with_model_builder s
                     (get (kw_model_builder kw) (model_builder s))) ;;
  mb <- attr model_builder ;;
  (match mb with
   | None => assign (fun s => with_model_builder s
                                (Some (Instance "ModelBuilder")))
   | Some _ => ret tt
   end) ;;
  emit Build ;;
  m <- lift build ;;
  assign (fun s => with_model s (Some m)) ;;
  mw <- attr model_walker ;;
  (match mw with
   | None => o <- new_ModelWalker ;;
             assign (fun s => with_model_walker s (Some o))
   | Some _ => ret tt
   end) ;;
  emit (ModelStep true).

Definition _set_goal_points (m : Model) : M state Model :=
  p1 <- attr p1 ;;
  p2 <- attr p2 ;;
  ret {| model_id := model_id m; model_p1 := p1; model_p2 := p2 |}.

Definition _load (saved_model : string) : M state Model :=
  emit (ImportModel saved_model) ;;
  m <- lift (import_model saved_model) ;;
  _set_goal_points m.

(** [if self.load_model:] on None or a string. *)
Definition requested (l : option string) : bool :=
  match l with
  | None => truthy VNone
  | Some s => truthy (VStr s)
  end.

Definition _modelwalk : M state unit :=
  kw <- global_kwargs ;;
  assign (fun s => with_model s (get (kw_model kw) (model s))) ;;
  assign (fun s => with_load_model s
                     (get (kw_load_model kw) (load_model s))) ;;
  assign (fun s => with_model_walker s
                     (get (kw_model_walker kw) (model_walker s))) ;;
  l <- attr load_model ;;
  m <- attr model ;;
  (if requested l then
     m' <- _load (get l "") ;;
     assign (fun s => with_model s (Some m'))
   else
     match m with
     | None => raise CNCException
     | Some _ => ret tt
     end) ;;
  mw <- attr model_walker ;;
  (match mw with
   | None => o <- new_ModelWalker ;;
             assign (fun s => with_model_walker s (Some o))
   | Some _ => ret tt
   end) ;;
  emit (ModelStep true).

(** [while not self._converged:] tests the attribute, a bound method,
    and does not call it. *)
Definition _iterwalk (fuel : nat) : M state unit :=
  kw <- global_kwargs ;;
  assign (fun s => with_iter_walker s
                     (get (kw_iter_walker kw) (iter_walker s))) ;;
  iw <- attr iter_walker ;;
  (match iw with
   | None => o <- new_IterWalker ;;
             assign (fun s => with_iter_walker s (Some o))
   | Some _ => ret tt
   end) ;;
  while fuel
        (ret (negb (truthy (VBoundMethod "_converged"))))
        (emit (IterStep 1) ;; emit (IterStep 2)).

Definition walk (fuel : nat) (mode : string) : M state unit :=
  kw <- global_kwargs ;;
  assign (fun s => with_p1 s (get (kw_p1 kw) 0%float)) ;;
  assign (fun s => with_p2 s (get (kw_p2 kw) 0%float)) ;;
  assign (fun s => with_model s (get (kw_model kw) (model s))) ;;
  assign (fun s => with_load_model s
                     (get (kw_load_model kw) (load_model s))) ;;
  assign (fun s => with_iter_walker s
                     (get (kw_iter_walker kw) (iter_walker s))) ;;
  assign (fun s => with_model_walker s
                     (get (kw_model_walker kw) (model_walker s))) ;;
  assign (fun s => with_model_builder s
                     (get (kw_model_builder kw) (model_builder s))) ;;
  if mode =? "iter" then
    _iterwalk fuel
  else if mode =? "model" then
    assign (fun s => with_load_model s
                       (get (kw_load_model kw) (load_model s))) ;;
    _modelwalk
  else if mode =? "build" then
    _modelbuild
  else if mode =? "auto" then
    raise NotImplementedError
  else
    raise CNCException.

End Methods.

End Skywalker.

(** ** Vocabulary for the statements about IterWalker *)

Module IterWalkSpec.

Import Py IterWalk.
Local Open Scope float_scope.

(** The write accesses of a log. *)
Definition puts (l : list event) : list event := filter is_put l.

(** A computation that leaves the devices as they are and issues no
    write, whatever its outcome. *)
Definition quiet {A} (m : M state A) : Prop :=
  forall st,
    devs (snd (m st)) = devs st /\
    puts (log (snd (m st))) = puts (log st).

(** A computation that leaves the walker's own attributes as they are. *)
Definition selfless {A} (m : M state A) : Prop :=
  forall st, self (snd (m st)) = self st.

(** [goal_x_1] and [goal_x_2] as functions of the imager and the target
    pixel. *)
Definition goal_x (im : Imager) (p : float) : float :=
  i_x im + (p - i_image_xsz im / 2 + 1) * i_mppix im.

(** The device reads of [_alpha_1_calc] and of [_alpha_2_calc], in the
    order Python evaluates the arguments. *)
Definition calc1_reads : list event :=
  [Get TheSource AX; Get TheSource AXp; Get Mirror1 AZ; Get Mirror2 AZ;
   Get Imager1 AZ; Get Mirror1 AX; Get Mirror2 AX;
   Get Imager1 AX; Get Imager1 AImageXsz; Get Imager1 AMppix].

Definition calc2_reads : list event :=
  [Get TheSource AX; Get TheSource AXp; Get Mirror1 AZ; Get Mirror2 AZ;
   Get Imager2 AZ; Get Mirror1 AX; Get Mirror2 AX;
   Get Imager2 AX; Get Imager2 AImageXsz; Get Imager2 AMppix].

(** The accesses of [n] iterations of the loop of [align]. *)
Fixpoint loop_reads (n : nat) : list event :=
  match n with
  | O => []
  | S n' => calc1_reads ++ calc2_reads ++ loop_reads n'
  end.

(** The accesses of [_move_mirrors]. *)
Definition commit_puts (a1 a2 : float) : list event :=
  [Put Mirror1 AAlpha a1; Put Mirror2 AAlpha a2].

(** The devices after [_move_mirrors]. *)
Definition committed (ds : devices) (a1 a2 : float) : devices :=
  set_mirror_2 (set_mirror_1 ds (set_alpha (mirror_1 ds) a1))
               (set_alpha (mirror_2 (set_mirror_1 ds (set_alpha (mirror_1 ds) a1))) a2).

(** The devices with other mirror angles, all else equal. *)
Definition retuned (st : state) (v1 v2 : float) : state :=
  {| self := self st; devs := committed (devs st) v1 v2; log := log st |}.

(** The state after some more accesses that changed nothing. *)
Definition after_reads (st : state) (evs : list event) : state :=
  {| self := self st; devs := devs st; log := log st ++ evs |}.

(** The walker with both angle estimates replaced. *)
Definition with_alphas (w : IterWalker) (a : float * float) : IterWalker :=
  with_alpha_2 (with_alpha_1 w (fst a)) (snd a).

(** The walker with the targets [align] stores from its arguments. *)
Definition with_targets (w : IterWalker) (p1' p2' : option float)
  : IterWalker :=
  let w1 := match p1' with Some _ => with_p1 w p1' | None => w end in
  match p2' with Some _ => with_p2 w1 p2' | None => w1 end.

(** The targets once [align] has stored its arguments. *)
Definition target (stored given : option float) : option float :=
  match given with
  | Some _ => given
  | None => stored
  end.

Section Solves.

Variable sp_pow2 : float -> res float.
Variable sp_tan : float -> float.
Variable sp_nsolve : (float -> float) -> float -> res float.

(** The geometry solve for mirror 1 on the devices [ds], with the
    companion angle [a2] and the target pixel [p]. *)
Definition solve_1 (ds : devices) (t : bool) (p a2 : float) : res float :=
  Geometry.alpha1 sp_pow2 sp_tan sp_nsolve
    (s_x (source ds)) (s_xp (source ds)) a2
    (m_z (mirror_1 ds)) (m_z (mirror_2 ds)) (i_z (imager_1 ds))
    (m_x (mirror_1 ds)) (m_x (mirror_2 ds))
    (goal_x (imager_1 ds) p) t.

(** The geometry solve for mirror 2, with the companion angle [a1]. *)
Definition solve_2 (ds : devices) (t : bool) (q a1 : float) : res float :=
  Geometry.alpha2 sp_pow2 sp_tan sp_nsolve
    (s_x (source ds)) (s_xp (source ds)) a1
    (m_z (mirror_1 ds)) (m_z (mirror_2 ds)) (i_z (imager_2 ds))
    (m_x (mirror_1 ds)) (m_x (mirror_2 ds))
    (goal_x (imager_2 ds) q) t.

(** One refinement as the specification words it: mirror 1 from the
    current estimate of mirror 2's angle, then mirror 2 from the angle
    just computed for mirror 1.  It raises what a solve raises. *)
Definition refine (ds : devices) (t : bool) (p q : float)
           (a : float * float) : res (float * float) :=
  (a1' <~ solve_1 ds t p (snd a) ;;
   a2' <~ solve_2 ds t q a1' ;;
   Ok (a1', a2'))%py.

(** [n] refinements in a row, as long as none raises. *)
Fixpoint refine_n (n : nat) (ds : devices) (t : bool) (p q : float)
         (a : float * float) : res (float * float) :=
  match n with
  | O => Ok a
  | S n' => (a' <~ refine ds t p q a ;; refine_n n' ds t p q a')%py
  end.

End Solves.

End IterWalkSpec.

(** ** Concrete inputs *)

Module Bench.

Import Py IterWalk.
Local Open Scope float_scope.

(** A stand-in for the external library where a concrete run needs one:
    the identity for the tangent and a root finder that always reports
    failure.  The closed-form runs below never call either. *)
Definition no_tan (x : float) : float := x.
Definition no_nsolve (f : float -> float) (s : float) : res float :=
  Raise SolverError.




(** The power [x**2] of CPython over a C library that rounds the square
    correctly: OverflowError where the square of a finite number
    overflows.  The concrete runs below square small integers, whose
    squares are exact. *)
Definition exact_pow2 (x : float) : res float :=
  if is_finite x && is_infinity (x * x) then Raise OverflowError
  else Ok (x * x).

(** A source on the axis; mirrors at z = 1 and z = 2 with both angles
    at 0; imagers at z = 3 and z = 4, two pixels wide with one metre per
    pixel, so that [goal_x] of a pixel [p] is [p] itself. *)
Definition bench : devices :=
  {| source := {| s_x := 0; s_xp := 0 |};
     mirror_1 := {| m_x := 0; m_z := 1; m_alpha := 0 |};
     mirror_2 := {| m_x := 0; m_z := 2; m_alpha := 0 |};
     imager_1 := {| i_x := 0; i_z := 3; i_image_xsz := 2; i_mppix := 1 |};
     imager_2 := {| i_x := 0; i_z := 4; i_image_xsz := 2; i_mppix := 1 |} |}.

(** The same bench after the mirrors were turned to 1 by someone else. *)
Definition turned_bench : devices :=
  IterWalkSpec.committed bench 1 1.

Definition kw (n : Z) : IterWalk.kwargs :=
  {| kw_p1 := Some (-4); kw_p2 := Some (-4);
     kw_tan := None; kw_max_n := Some n |}.

(** A walker built on the bench with targets -4 and -4. *)
Definition fresh (n : Z) : state := __init__ bench (kw n).

(** A walker built with a budget of 0 whose mirrors were turned since. *)
Definition stale : state :=
  {| self := self (fresh 0); devs := turned_bench; log := log (fresh 0) |}.

(** The walker after one [align] that did not move the mirrors. *)
Definition refined : state :=
  snd (align exact_pow2 no_tan no_nsolve None None (VBool false) (fresh 1)).

(** The same walker with the first target changed to -5. *)
Definition retargeted : state :=
  {| self := with_p1 (self refined) (Some (-5));
     devs := devs refined;
     log := log refined |}.

Definition sky (m : option Skywalker.Model) (l : option string)
  : Skywalker.state :=
  {| Skywalker.self :=
       Skywalker.__init__
         {| Skywalker.kw_monitor := None; Skywalker.kw_walker := None;
            Skywalker.kw_model_builder := None;
            Skywalker.kw_model := Some m;
            Skywalker.kw_iter_walker := Some (Some (Skywalker.Instance "IterWalker"));
            Skywalker.kw_model_walker := None;
            Skywalker.kw_load_model := Some l;
            Skywalker.kw_p1 := None; Skywalker.kw_p2 := None |};
     Skywalker.current_centroids := (1, 1);
     Skywalker.log := [] |}.

(** A global scope in which someone has bound the three names the
    methods look up: [kwargs] to an empty mapping, and the two walker
    classes. *)
Definition patched_globals : Skywalker.globals :=
  {| Skywalker.g_kwargs := Some Skywalker.no_kwargs;
     Skywalker.g_IterWalker := true;
     Skywalker.g_ModelWalker := true |}.

Definition no_import (name : string) : res Skywalker.Model :=
  Raise ImportError.
Definition no_build : res Skywalker.Model := Raise ValueError.

End Bench.

(** ** The closed forms in exact arithmetic *)

Module Exact.

Local Open Scope Q_scope.

(** The polynomials of [alpha1] over the rationals, each square being the
    square. *)
Definition alpha1_B (x0 xp0 a2 d2 d4 d5 m1hdx m2hdx x : Q) : Q :=
  Poly.alpha1_B Q Qplus Qminus Qmult Qopp inject_Z
                x0 xp0 a2 d2 d4 d5 m1hdx m2hdx x.

Definition alpha1_D (x0 xp0 a2 d2 d4 d5 m1hdx m2hdx x : Q) : Q :=
  Poly.alpha1_D Q Qplus Qminus Qmult inject_Z
                x0 xp0 a2 d2 d4 d5 m1hdx m2hdx x
                (a2 * a2) (d2 * d2) (d4 * d4) (d5 * d5) (m2hdx * m2hdx)
                (x * x).

Definition alpha1_K (x0 xp0 a2 d2 d4 d5 m1hdx m2hdx x : Q) : Q :=
  Poly.alpha1_K Q Qplus Qminus Qmult inject_Z
                x0 xp0 a2 d2 d4 d5 m1hdx m2hdx x.

(** The polynomials of [alpha2] over the rationals. *)
Definition alpha2_B (x0 xp0 a1 d2 d4 d6 m1hdx m2hdx x : Q) : Q :=
  Poly.alpha2_B Q Qplus Qminus Qmult inject_Z
                x0 xp0 a1 d2 d4 d6 m1hdx m2hdx x.

Definition alpha2_D (x0 xp0 a1 d2 d4 d6 m1hdx m2hdx x : Q) : Q :=
  Poly.alpha2_D Q Qplus Qminus Qmult inject_Z
                x0 xp0 a1 d2 d4 d6 m1hdx m2hdx x
                (a1 * a1) (d2 * d2) (d4 * d4) (d6 * d6) (xp0 * xp0)
                (m1hdx * m1hdx) (x * x) (x0 * x0).

Definition alpha2_K (x0 xp0 a1 d2 d4 d6 m1hdx m2hdx x : Q) : Q :=
  Poly.alpha2_K Q Qplus Qminus Qmult inject_Z
                x0 xp0 a1 d2 d4 d6 m1hdx m2hdx x.

End Exact.

(** ** Vocabulary for further statements *)

Module Frames.

Import Py IterWalk.

(** Two states with the same walker and the same devices; only their logs
    may differ. *)
Definition same_world (st st' : state) : Prop :=
  self st = self st' /\ devs st = devs st'.

(** A computation whose outcome and whose effect on the walker and the
    devices do not depend on the log. *)
Definition log_blind {A} (m : M state A) : Prop :=
  forall st st',
    same_world st st' ->
    fst (m st) = fst (m st') /\ same_world (snd (m st)) (snd (m st')).

(** The walker's configuration: targets, solve mode and budget. *)
Definition config (w : IterWalker) : option float * option float * bool * Z :=
  (p1 w, p2 w, tan w, max_n w).

(** A computation that leaves the configuration as it is. *)
Definition keeps_config {A} (m : M state A) : Prop :=
  forall st, config (self (snd (m st))) = config (self st).

(** Everything the devices hold except the two mirror angles. *)
Definition positions (ds : devices)
  : Source * (float * float) * (float * float) * Imager * Imager :=
  (source ds,
   (m_x (mirror_1 ds), m_z (mirror_1 ds)),
   (m_x (mirror_2 ds), m_z (mirror_2 ds)),
   imager_1 ds, imager_2 ds).

(** The reads of [_alpha_1_calc] up to the point where a missing target
    makes [goal_x_1] raise: [mppix] is not among them. *)
Definition calc1_reads_before_target : list event :=
  [Get TheSource AX; Get TheSource AXp; Get Mirror1 AZ; Get Mirror2 AZ;
   Get Imager1 AZ; Get Mirror1 AX; Get Mirror2 AX;
   Get Imager1 AX; Get Imager1 AImageXsz].

Definition calc2_reads_before_target : list event :=
  [Get TheSource AX; Get TheSource AXp; Get Mirror1 AZ; Get Mirror2 AZ;
   Get Imager2 AZ; Get Mirror1 AX; Get Mirror2 AX;
   Get Imager2 AX; Get Imager2 AImageXsz].

(** A walker on the bench that uses the root finder, with targets -4 and
    -4 and a budget of [n]. *)
Definition rooting (n : Z) : state :=
  __init__ Bench.bench
    {| kw_p1 := Some (-4)%float; kw_p2 := Some (-4)%float;
       kw_tan := Some true; kw_max_n := Some n |}.

(** A walker on the bench with no target and a budget of [n]. *)
Definition aimless (n : Z) : state :=
  __init__ Bench.bench
    {| kw_p1 := None; kw_p2 := None; kw_tan := None; kw_max_n := Some n |}.

(** A walker on the bench with the first target only. *)
Definition half_aimed (n : Z) : state :=
  __init__ Bench.bench
    {| kw_p1 := Some (-4)%float; kw_p2 := None;
       kw_tan := None; kw_max_n := Some n |}.

End Frames.

(** ** Vocabulary for further statements about Skywalker *)

Module SkyFrames.

Import Py Skywalker.

(** A computation that leaves the dispatcher's targets as they are. *)
Definition keeps_targets {A} (m : M state A) : Prop :=
  forall st,
    p1 (self (snd (m st))) = p1 (self st) /\
    p2 (self (snd (m st))) = p2 (self st).

(** The state after one more call, with the dispatcher replaced. *)
Definition after (st : state) (s : Skywalker) (evs : list event) : state :=
  {| self := s; current_centroids := current_centroids st;
     log := log st ++ evs |}.

(** The model walker the model step will use: the one at hand, or a new
    one where there is none and the class is bound. *)
Definition walker_at_hand (g : globals) (w : option object) : option object :=
  match w with
  | Some o => Some o
  | None => if g_ModelWalker g then Some (Instance "ModelWalker") else None
  end.

(** The assignments [walk] starts with, once [kwargs] is bound. *)
Definition reset (kw : kwargs) (s : Skywalker) : Skywalker :=
  with_model_builder
    (with_model_walker
       (with_iter_walker
          (with_load_model
             (with_model
                (with_p2 (with_p1 s (get (kw_p1 kw) 0%float))
                         (get (kw_p2 kw) 0%float))
                (get (kw_model kw) (model s)))
             (get (kw_load_model kw) (load_model s)))
          (get (kw_iter_walker kw) (iter_walker s)))
       (get (kw_model_walker kw) (model_walker s)))
    (get (kw_model_builder kw) (model_builder s)).

(** The state in which [walk] dispatches on its mode. *)
Definition entered (kw : kwargs) (st : state) : state :=
  {| self := reset kw (self st);
     current_centroids := current_centroids st;
     log := log st |}.

(** What [walk] does once it has made its assignments. *)
Definition dispatch (g : globals) (import_model : string -> res Model)
           (build : res Model) (fuel : nat) (mode : string) : M state unit :=
  if String.eqb mode "iter" then _iterwalk g fuel
  else if String.eqb mode "model" then _modelwalk g import_model
  else if String.eqb mode "build" then _modelbuild g build
  else if String.eqb mode "auto" then raise NotImplementedError
  else raise CNCException.

(** A global scope with [kwargs] bound to an empty mapping and the two
    walker classes unbound, as they are in skywalker.py. *)
Definition kwargs_only : globals :=
  {| g_kwargs := Some no_kwargs; g_IterWalker := false;
     g_ModelWalker := false |}.

(** A dispatcher built without any keyword argument. *)
Definition alone : state :=
  {| self := __init__ no_kwargs;
     current_centroids := (1%float, 1%float);
     log := [] |}.

(** A dispatcher built with the targets 5 and 6. *)
Definition aimed : state :=
  {| self := __init__
               {| kw_monitor := None; kw_walker := None;
                  kw_model_builder := None; kw_model := None;
                  kw_iter_walker := None; kw_model_walker := None;
                  kw_load_model := None;
                  kw_p1 := Some 5%float; kw_p2 := Some 6%float |};
     current_centroids := (1%float, 1%float);
     log := [] |}.

(** A saved model that imports, for the examples. *)
Definition saved : Model :=
  {| model_id := "saved"; model_p1 := 7; model_p2 := 7 |}.

Definition import_saved (name : string) : res Model := Ok saved.

(** A dispatcher that holds the model [m], for the examples. *)
Definition holding (m : Model) : state := Bench.sky (Some m) None.

End SkyFrames.

(** * Properties *)

(** Two binary64 values that a comparison tells apart are different. *)
Lemma float_neq (x y c : float) :
  PrimFloat.ltb x c = negb (PrimFloat.ltb y c) -> x <> y.
Proof.
  intros H E. subst y. destruct (PrimFloat.ltb x c); discriminate.
Qed.

(** ** Outcomes *)

Section OutcomeFacts.

Import Py.
Context {A B : Type}.

Lemma and_then_Ok (r : res A) (k : A -> res B) v :
  and_then r k = Ok v -> exists a, r = Ok a /\ k a = Ok v.
Proof.
  destruct r as [a | e |]; cbn; intro H; try discriminate.
  exists a. split; [reflexivity | exact H].
Qed.

Lemma and_then_Raise (r : res A) (k : A -> res B) e :
  and_then r k = Raise e ->
  r = Raise e \/ exists a, r = Ok a /\ k a = Raise e.
Proof.
  destruct r as [a | e' |]; cbn; intro H; try discriminate.
  - right. exists a. split; [reflexivity | exact H].
  - left. apply (f_equal (fun r => match r with
                                   | Raise x => x
                                   | _ => e
                                   end)) in H.
    cbn in H. rewrite H. reflexivity.
Qed.

End OutcomeFacts.

(** ** The closed-form solves *)

Section GeometryFacts.

Import Py Geometry.
Local Open Scope float_scope.

Variable sp_pow2 : float -> res float.
Variable sp_tan : float -> float.
Variable sp_nsolve : (float -> float) -> float -> res float.

(** A binary64 value minus itself is a zero, or a NaN when the value is
    not finite. *)
Lemma sub_self_spec (d : float) :
  Prim2SF (d - d) = S754_zero false \/ Prim2SF (d - d) = S754_nan.
Proof.
  rewrite sub_spec. unfold SF64sub.
  destruct (Prim2SF d) as [[|] | [|] | | s m e]; cbn; auto.
  rewrite Z.sub_diag. cbn. auto.
Qed.

Lemma not_finite_of_spec (v : float) :
  (Prim2SF v = S754_nan \/ exists s, Prim2SF v = S754_infinity s) ->
  is_finite v = false.
Proof.
  unfold is_finite, is_nan, is_infinity.
  rewrite !FloatAxioms.eqb_spec, abs_spec.
  intros [H | [s H]]; rewrite H; [reflexivity|].
  destruct s; reflexivity.
Qed.

(** A quotient by four times the difference of two equal positions is
    an infinity or a NaN. *)
Lemma quotient_over_no_span (n d : float) :
  is_finite (n / (4 * (d - d))) = false.
Proof.
  apply not_finite_of_spec.
  assert (H4 : Prim2SF 4 = S754_finite false 4503599627370496 (-50))
    by reflexivity.
  rewrite div_spec, mul_spec, H4. unfold SF64div, SF64mul.
  destruct (sub_self_spec d) as [H | H]; rewrite H; cbn.
  - destruct (Prim2SF n) as [sn | sn | | sn mn en]; cbn; eauto.
  - destruct (Prim2SF n); cbn; auto.
Qed.

(** What [alpha1(..., t=False)] returns when it returns: the squares were
    all taken, and the value is the quotient over them. *)
Lemma alpha1_closed_Ok x0 xp0 a d2 d4 d m1hdx m2hdx x v :
  alpha1_closed sp_pow2 x0 xp0 a d2 d4 d m1hdx m2hdx x = Ok v ->
  exists a2s d2s d4s d5s m2hdxs xs,
    sp_pow2 a = Ok a2s /\ sp_pow2 d2 = Ok d2s /\ sp_pow2 d4 = Ok d4s /\
    sp_pow2 d = Ok d5s /\ sp_pow2 m2hdx = Ok m2hdxs /\ sp_pow2 x = Ok xs /\
    v = (alpha1_B x0 xp0 a d2 d4 d m1hdx m2hdx x
         - sqrt (alpha1_D x0 xp0 a d2 d4 d m1hdx m2hdx x
                          a2s d2s d4s d5s m2hdxs xs))
        / (4 * (d4 - d)).
Proof.
  unfold alpha1_closed. intro H.
  apply and_then_Ok in H. destruct H as (a2s & E1 & H).
  apply and_then_Ok in H. destruct H as (d2s & E2 & H).
  apply and_then_Ok in H. destruct H as (d4s & E3 & H).
  apply and_then_Ok in H. destruct H as (d5s & E4 & H).
  apply and_then_Ok in H. destruct H as (m2hdxs & E5 & H).
  apply and_then_Ok in H. destruct H as (xs & E6 & H).
  exists a2s, d2s, d4s, d5s, m2hdxs, xs.
  repeat (split; [assumption|]).
  apply (f_equal (value_or 0)) in H. cbn in H. symmetry. exact H.
Qed.

Lemma alpha2_closed_Ok x0 xp0 a d2 d4 d m1hdx m2hdx x v :
  alpha2_closed sp_pow2 x0 xp0 a d2 d4 d m1hdx m2hdx x = Ok v ->
  exists a1s d2s d4s d6s xp0s m1hdxs xs x0s,
    sp_pow2 a = Ok a1s /\ sp_pow2 d2 = Ok d2s /\ sp_pow2 d4 = Ok d4s /\
    sp_pow2 d = Ok d6s /\ sp_pow2 xp0 = Ok xp0s /\
    sp_pow2 m1hdx = Ok m1hdxs /\ sp_pow2 x = Ok xs /\ sp_pow2 x0 = Ok x0s /\
    v = (alpha2_B x0 xp0 a d2 d4 d m1hdx m2hdx x
         + sqrt (alpha2_D x0 xp0 a d2 d4 d m1hdx m2hdx x
                          a1s d2s d4s d6s xp0s m1hdxs xs x0s))
        / (4 * (d4 - d)).
Proof.
  unfold alpha2_closed. intro H.
  apply and_then_Ok in H. destruct H as (a1s & E1 & H).
  apply and_then_Ok in H. destruct H as (d2s & E2 & H).
  apply and_then_Ok in H. destruct H as (d4s & E3 & H).
  apply and_then_Ok in H. destruct H as (d6s & E4 & H).
  apply and_then_Ok in H. destruct H as (xp0s & E5 & H).
  apply and_then_Ok in H. destruct H as (m1hdxs & E6 & H).
  apply and_then_Ok in H. destruct H as (xs & E7 & H).
  apply and_then_Ok in H. destruct H as (x0s & E8 & H).
  exists a1s, d2s, d4s, d6s, xp0s, m1hdxs, xs, x0s.
  repeat (split; [assumption|]).
  apply (f_equal (value_or 0)) in H. cbn in H. symmetry. exact H.
Qed.

(** When the squares are taken, a closed-form solve returns. *)
Lemma alpha1_closed_of_powers x0 xp0 a d2 d4 d m1hdx m2hdx x
      a2s d2s d4s d5s m2hdxs xs :
  sp_pow2 a = Ok a2s -> sp_pow2 d2 = Ok d2s -> sp_pow2 d4 = Ok d4s ->
  sp_pow2 d = Ok d5s -> sp_pow2 m2hdx = Ok m2hdxs -> sp_pow2 x = Ok xs ->
  alpha1_closed sp_pow2 x0 xp0 a d2 d4 d m1hdx m2hdx x
  = Ok ((alpha1_B x0 xp0 a d2 d4 d m1hdx m2hdx x
         - sqrt (alpha1_D x0 xp0 a d2 d4 d m1hdx m2hdx x
                          a2s d2s d4s d5s m2hdxs xs))
        / (4 * (d4 - d))).
Proof.
  intros E1 E2 E3 E4 E5 E6. unfold alpha1_closed.
  rewrite E1, E2, E3, E4, E5, E6. reflexivity.
Qed.

Lemma alpha2_closed_of_powers x0 xp0 a d2 d4 d m1hdx m2hdx x
      a1s d2s d4s d6s xp0s m1hdxs xs x0s :
  sp_pow2 a = Ok a1s -> sp_pow2 d2 = Ok d2s -> sp_pow2 d4 = Ok d4s ->
  sp_pow2 d = Ok d6s -> sp_pow2 xp0 = Ok xp0s -> sp_pow2 m1hdx = Ok m1hdxs ->
  sp_pow2 x = Ok xs -> sp_pow2 x0 = Ok x0s ->
  alpha2_closed sp_pow2 x0 xp0 a d2 d4 d m1hdx m2hdx x
  = Ok ((alpha2_B x0 xp0 a d2 d4 d m1hdx m2hdx x
         + sqrt (alpha2_D x0 xp0 a d2 d4 d m1hdx m2hdx x
                          a1s d2s d4s d6s xp0s m1hdxs xs x0s))
        / (4 * (d4 - d))).
Proof.
  intros E1 E2 E3 E4 E5 E6 E7 E8. unfold alpha2_closed.
  rewrite E1, E2, E3, E4, E5, E6, E7, E8. reflexivity.
Qed.

(** An exception of a closed-form solve is the exception of one of its
    squares. *)
Lemma alpha1_closed_Raise x0 xp0 a d2 d4 d m1hdx m2hdx x e :
  alpha1_closed sp_pow2 x0 xp0 a d2 d4 d m1hdx m2hdx x = Raise e ->
  In (Raise e) (map sp_pow2 [a; d2; d4; d; m2hdx; x]).
Proof.
  unfold alpha1_closed. intro H. cbn [map In].
  repeat (apply and_then_Raise in H;
          destruct H as [H | (? & _ & H)]; [tauto|]).
  discriminate H.
Qed.

Lemma alpha2_closed_Raise x0 xp0 a d2 d4 d m1hdx m2hdx x e :
  alpha2_closed sp_pow2 x0 xp0 a d2 d4 d m1hdx m2hdx x = Raise e ->
  In (Raise e) (map sp_pow2 [a; d2; d4; d; xp0; m1hdx; x; x0]).
Proof.
  unfold alpha2_closed. intro H. cbn [map In].
  repeat (apply and_then_Raise in H;
          destruct H as [H | (? & _ & H)]; [tauto|]).
  discriminate H.
Qed.

(** C1, as amended: no closed-form solve checks the geometry.  For every
    input, equal mirror z-positions or not, an exception of a closed-form
    solve is the exception of one of its powers [v**2]; when the powers are
    taken the solve returns, and what it returns is the quotient by four
    times the difference between the z of mirror 2 and the z of the
    imager; where these two are equal the value returned is an infinity or
    a NaN. *)
Theorem closed_form_has_no_geometry_check :
  forall x0 xp0 a d2 d4 d m1hdx m2hdx x : float,
    (forall e,
        alpha1 sp_pow2 sp_tan sp_nsolve x0 xp0 a d2 d4 d m1hdx m2hdx x false
        = Raise e ->
        In (Raise e) (map sp_pow2 [a; d2; d4; d; m2hdx; x])) /\
    (forall a2s d2s d4s d5s m2hdxs xs,
        sp_pow2 a = Ok a2s -> sp_pow2 d2 = Ok d2s -> sp_pow2 d4 = Ok d4s ->
        sp_pow2 d = Ok d5s -> sp_pow2 m2hdx = Ok m2hdxs ->
        sp_pow2 x = Ok xs ->
        alpha1 sp_pow2 sp_tan sp_nsolve x0 xp0 a d2 d4 d m1hdx m2hdx x false
        = Ok ((alpha1_B x0 xp0 a d2 d4 d m1hdx m2hdx x
               - sqrt (alpha1_D x0 xp0 a d2 d4 d m1hdx m2hdx x
                                a2s d2s d4s d5s m2hdxs xs))
              / (4 * (d4 - d)))) /\
    (forall v,
        alpha1 sp_pow2 sp_tan sp_nsolve x0 xp0 a d2 d d m1hdx m2hdx x false
        = Ok v ->
        is_finite v = false) /\
    (forall e,
        alpha2 sp_pow2 sp_tan sp_nsolve x0 xp0 a d2 d4 d m1hdx m2hdx x false
        = Raise e ->
        In (Raise e) (map sp_pow2 [a; d2; d4; d; xp0; m1hdx; x; x0])) /\
    (forall a1s d2s d4s d6s xp0s m1hdxs xs x0s,
        sp_pow2 a = Ok a1s -> sp_pow2 d2 = Ok d2s -> sp_pow2 d4 = Ok d4s ->
        sp_pow2 d = Ok d6s -> sp_pow2 xp0 = Ok xp0s ->
        sp_pow2 m1hdx = Ok m1hdxs -> sp_pow2 x = Ok xs ->
        sp_pow2 x0 = Ok x0s ->
        alpha2 sp_pow2 sp_tan sp_nsolve x0 xp0 a d2 d4 d m1hdx m2hdx x false
        = Ok ((alpha2_B x0 xp0 a d2 d4 d m1hdx m2hdx x
               + sqrt (alpha2_D x0 xp0 a d2 d4 d m1hdx m2hdx x
                                a1s d2s d4s d6s xp0s m1hdxs xs x0s))
              / (4 * (d4 - d)))) /\
    (forall v,
        alpha2 sp_pow2 sp_tan sp_nsolve x0 xp0 a d2 d d m1hdx m2hdx x false
        = Ok v ->
        is_finite v = false).
Proof.
  intros. unfold alpha1, alpha2.
  split; [intros e H; exact (alpha1_closed_Raise _ _ _ _ _ _ _ _ _ _ H)|].
  split; [intros; apply alpha1_closed_of_powers; assumption|].
  split.
  { intros v H. apply alpha1_closed_Ok in H.
    destruct H as (a2s & d2s & d4s & d5s & m2hdxs & xs & H).
    destruct H as (_ & _ & _ & _ & _ & _ & ->).
    apply quotient_over_no_span. }
  split; [intros e H; exact (alpha2_closed_Raise _ _ _ _ _ _ _ _ _ _ H)|].
  split; [intros; apply alpha2_closed_of_powers; assumption|].
  intros v H. apply alpha2_closed_Ok in H.
  destruct H as (a1s & d2s & d4s & d6s & xp0s & m1hdxs & xs & x0s & H).
  destruct H as (_ & _ & _ & _ & _ & _ & _ & _ & ->).
  apply quotient_over_no_span.
Qed.

(** In exact arithmetic the argument of the square root is the
    discriminant of a quadratic in the angle solved for. *)
Lemma alpha1_discriminant (x0 xp0 a d2 d4 d m1hdx m2hdx x : Q) :
  (Exact.alpha1_D x0 xp0 a d2 d4 d m1hdx m2hdx x
   == Exact.alpha1_B x0 xp0 a d2 d4 d m1hdx m2hdx x
      * Exact.alpha1_B x0 xp0 a d2 d4 d m1hdx m2hdx x
      - 4 * (d4 - d) * Exact.alpha1_K x0 xp0 a d2 d4 d m1hdx m2hdx x)%Q.
Proof.
  unfold Exact.alpha1_D, Exact.alpha1_B, Exact.alpha1_K,
    Poly.alpha1_D, Poly.alpha1_B, Poly.alpha1_K.
  ring.
Qed.

Lemma alpha2_discriminant (x0 xp0 a d2 d4 d m1hdx m2hdx x : Q) :
  (Exact.alpha2_D x0 xp0 a d2 d4 d m1hdx m2hdx x
   == Exact.alpha2_B x0 xp0 a d2 d4 d m1hdx m2hdx x
      * Exact.alpha2_B x0 xp0 a d2 d4 d m1hdx m2hdx x
      - 4 * (d4 - d) * Exact.alpha2_K x0 xp0 a d2 d4 d m1hdx m2hdx x)%Q.
Proof.
  unfold Exact.alpha2_D, Exact.alpha2_B, Exact.alpha2_K,
    Poly.alpha2_D, Poly.alpha2_B, Poly.alpha2_K.
  ring.
Qed.

(** The root of [4*den*r*r - 2*B*r + K = 0] on either branch, [s] being a
    square root of the discriminant. *)
Lemma quadratic_root (B K den D s : Q) :
  (D == B * B - 4 * den * K ->
   s * s == D ->
   ~ den == 0 ->
   4 * den * ((B - s) / (4 * den)) * ((B - s) / (4 * den))
   - 2 * B * ((B - s) / (4 * den)) + K == 0)%Q.
Proof.
  intros HD Hs Hden.
  assert (HK : (4 * den * K == B * B - s * s)%Q)
    by (rewrite Hs, HD; ring).
  assert (E : (4 * den * ((B - s) / (4 * den)) * ((B - s) / (4 * den))
               - 2 * B * ((B - s) / (4 * den)) + K
               == (4 * den * K - (B * B - s * s)) / (4 * den))%Q)
    by (field; exact Hden).
  rewrite E, HK. field. exact Hden.
Qed.

(** C2, as amended: when it returns, [alpha1] returns the root on the
    branch with the negative square root and [alpha2] the root on the
    branch with the positive square root, [(B - sqrt D) / (4*(d4 - d5))]
    and [(B + sqrt D) / (4*(d4 - d6))] over the powers the runtime took;
    and in exact arithmetic these [B] and [D] are the linear coefficient
    and the discriminant of a quadratic in the angle, of which the quotient
    is a root. *)
Theorem closed_form_branches :
  (forall x0 xp0 a d2 d4 d m1hdx m2hdx x v : float,
      alpha1 sp_pow2 sp_tan sp_nsolve x0 xp0 a d2 d4 d m1hdx m2hdx x false
      = Ok v ->
      exists a2s d2s d4s d5s m2hdxs xs,
        sp_pow2 a = Ok a2s /\ sp_pow2 d2 = Ok d2s /\ sp_pow2 d4 = Ok d4s /\
        sp_pow2 d = Ok d5s /\ sp_pow2 m2hdx = Ok m2hdxs /\
        sp_pow2 x = Ok xs /\
        v = neg_sqrt_root (alpha1_B x0 xp0 a d2 d4 d m1hdx m2hdx x)
                          (alpha1_D x0 xp0 a d2 d4 d m1hdx m2hdx x
                                    a2s d2s d4s d5s m2hdxs xs)
                          (d4 - d)) /\
  (forall x0 xp0 a d2 d4 d m1hdx m2hdx x v : float,
      alpha2 sp_pow2 sp_tan sp_nsolve x0 xp0 a d2 d4 d m1hdx m2hdx x false
      = Ok v ->
      exists a1s d2s d4s d6s xp0s m1hdxs xs x0s,
        sp_pow2 a = Ok a1s /\ sp_pow2 d2 = Ok d2s /\ sp_pow2 d4 = Ok d4s /\
        sp_pow2 d = Ok d6s /\ sp_pow2 xp0 = Ok xp0s /\
        sp_pow2 m1hdx = Ok m1hdxs /\ sp_pow2 x = Ok xs /\
        sp_pow2 x0 = Ok x0s /\
        v = pos_sqrt_root (alpha2_B x0 xp0 a d2 d4 d m1hdx m2hdx x)
                          (alpha2_D x0 xp0 a d2 d4 d m1hdx m2hdx x
                                    a1s d2s d4s d6s xp0s m1hdxs xs x0s)
                          (d4 - d)) /\
  (forall x0 xp0 a d2 d4 d m1hdx m2hdx x s : Q,
      s * s == Exact.alpha1_D x0 xp0 a d2 d4 d m1hdx m2hdx x ->
      ~ d4 - d == 0 ->
      4 * (d4 - d)
      * ((Exact.alpha1_B x0 xp0 a d2 d4 d m1hdx m2hdx x - s) / (4 * (d4 - d)))
      * ((Exact.alpha1_B x0 xp0 a d2 d4 d m1hdx m2hdx x - s) / (4 * (d4 - d)))
      - 2 * Exact.alpha1_B x0 xp0 a d2 d4 d m1hdx m2hdx x
        * ((Exact.alpha1_B x0 xp0 a d2 d4 d m1hdx m2hdx x - s)
           / (4 * (d4 - d)))
      + Exact.alpha1_K x0 xp0 a d2 d4 d m1hdx m2hdx x == 0)%Q /\
  (forall x0 xp0 a d2 d4 d m1hdx m2hdx x s : Q,
      s * s == Exact.alpha2_D x0 xp0 a d2 d4 d m1hdx m2hdx x ->
      ~ d4 - d == 0 ->
      4 * (d4 - d)
      * ((Exact.alpha2_B x0 xp0 a d2 d4 d m1hdx m2hdx x + s) / (4 * (d4 - d)))
      * ((Exact.alpha2_B x0 xp0 a d2 d4 d m1hdx m2hdx x + s) / (4 * (d4 - d)))
      - 2 * Exact.alpha2_B x0 xp0 a d2 d4 d m1hdx m2hdx x
        * ((Exact.alpha2_B x0 xp0 a d2 d4 d m1hdx m2hdx x + s)
           / (4 * (d4 - d)))
      + Exact.alpha2_K x0 xp0 a d2 d4 d m1hdx m2hdx x == 0)%Q.
Proof.
  split; [intros until v; intro H; exact (alpha1_closed_Ok _ _ _ _ _ _ _ _ _ _ H)|].
  split; [intros until v; intro H; exact (alpha2_closed_Ok _ _ _ _ _ _ _ _ _ _ H)|].
  split.
  - intros x0 xp0 a d2 d4 d m1hdx m2hdx x s Hs Hden.
    exact (quadratic_root _ _ _ _ s
             (alpha1_discriminant x0 xp0 a d2 d4 d m1hdx m2hdx x) Hs Hden).
  - intros x0 xp0 a d2 d4 d m1hdx m2hdx x s Hs Hden.
    assert (Hs' : ((- s) * (- s)
                   == Exact.alpha2_D x0 xp0 a d2 d4 d m1hdx m2hdx x)%Q)
      by (rewrite <- Hs; ring).
    pose proof (quadratic_root _ _ _ _ (- s)%Q
                  (alpha2_discriminant x0 xp0 a d2 d4 d m1hdx m2hdx x)
                  Hs' Hden) as R.
    rewrite <- R. field. exact Hden.
Qed.

End GeometryFacts.

Section GeometryOnTheBench.

Import Py Geometry Bench.

(** C1 fails as stated: with both mirrors at z = 2 the two closed-form
    solves return 2 and -1 and raise nothing. *)
Lemma equal_mirror_z_is_solved :
  alpha1 exact_pow2 no_tan no_nsolve 0 0 0 2 2 3 0 0 (-4) false
  = Ok 2%float /\
  alpha2 exact_pow2 no_tan no_nsolve 0 0 0 2 2 4 0 0 (-4) false
  = Ok (-1)%float.
Proof.
  split; vm_compute; reflexivity.
Qed.

Lemma closed_form_has_no_geometry_check_witness :
  (alpha1 exact_pow2 no_tan no_nsolve 0 0 1e200 2 2 3 0 0 (-4) false
   = Raise OverflowError /\
   In (Raise OverflowError)
      (map exact_pow2 [1e200; 2; 2; 3; 0; -4]%float)) /\
  (exact_pow2 0 = Ok 0%float /\ exact_pow2 2 = Ok 4%float /\
   exact_pow2 3 = Ok 9%float /\ exact_pow2 (-4) = Ok 16%float /\
   alpha1 exact_pow2 no_tan no_nsolve 0 0 0 2 2 3 0 0 (-4) false
   = Ok ((alpha1_B 0 0 0 2 2 3 0 0 (-4)
          - sqrt (alpha1_D 0 0 0 2 2 3 0 0 (-4) 0 4 4 9 0 16))
         / (4 * (2 - 3)))%float) /\
  (alpha1 exact_pow2 no_tan no_nsolve 0 0 0 2 3 3 0 0 (-4) false
   = Ok neg_infinity /\
   is_finite neg_infinity = false) /\
  (alpha2 exact_pow2 no_tan no_nsolve 0 0 1e200 2 2 4 0 0 (-4) false
   = Raise OverflowError /\
   In (Raise OverflowError)
      (map exact_pow2 [1e200; 2; 2; 4; 0; 0; -4; 0]%float)) /\
  (exact_pow2 4 = Ok 16%float /\
   alpha2 exact_pow2 no_tan no_nsolve 0 0 0 2 2 4 0 0 (-4) false
   = Ok ((alpha2_B 0 0 0 2 2 4 0 0 (-4)
          + sqrt (alpha2_D 0 0 0 2 2 4 0 0 (-4) 0 4 4 16 0 0 16 0))
         / (4 * (2 - 4)))%float) /\
  (alpha2 exact_pow2 no_tan no_nsolve 0 0 0 2 4 4 0 0 (-4) false
   = Ok infinity /\
   is_finite infinity = false).
Proof.
  assert (E1 : alpha1 exact_pow2 no_tan no_nsolve 0 0 1e200 2 2 3 0 0 (-4)
                      false = Raise OverflowError)
    by (vm_compute; reflexivity).
  assert (E3 : alpha1 exact_pow2 no_tan no_nsolve 0 0 0 2 3 3 0 0 (-4) false
               = Ok neg_infinity) by (vm_compute; reflexivity).
  assert (E4 : alpha2 exact_pow2 no_tan no_nsolve 0 0 1e200 2 2 4 0 0 (-4)
                      false = Raise OverflowError)
    by (vm_compute; reflexivity).
  assert (E6 : alpha2 exact_pow2 no_tan no_nsolve 0 0 0 2 4 4 0 0 (-4) false
               = Ok infinity) by (vm_compute; reflexivity).
  assert (P0 : exact_pow2 0 = Ok 0%float) by (vm_compute; reflexivity).
  assert (P2 : exact_pow2 2 = Ok 4%float) by (vm_compute; reflexivity).
  assert (P3 : exact_pow2 3 = Ok 9%float) by (vm_compute; reflexivity).
  assert (P4 : exact_pow2 4 = Ok 16%float) by (vm_compute; reflexivity).
  assert (Pm : exact_pow2 (-4) = Ok 16%float) by (vm_compute; reflexivity).
  split; [split; [exact E1|]|].
  { exact (proj1 (closed_form_has_no_geometry_check exact_pow2 no_tan
                    no_nsolve 0 0 1e200 2 2 3 0 0 (-4)) OverflowError E1). }
  split; [repeat (split; [assumption|])|].
  { exact (proj1 (proj2 (closed_form_has_no_geometry_check exact_pow2 no_tan
                           no_nsolve 0 0 0 2 2 3 0 0 (-4)))
             0 4 4 9 0 16 P0 P2 P2 P3 P0 Pm)%float. }
  split; [split; [exact E3|]|].
  { exact (proj1 (proj2 (proj2
             (closed_form_has_no_geometry_check exact_pow2 no_tan
                no_nsolve 0 0 0 2 2 3 0 0 (-4)))) neg_infinity E3). }
  split; [split; [exact E4|]|].
  { exact (proj1 (proj2 (proj2 (proj2
             (closed_form_has_no_geometry_check exact_pow2 no_tan
                no_nsolve 0 0 1e200 2 2 4 0 0 (-4))))) OverflowError E4). }
  split; [split; [exact P4|]|].
  { exact (proj1 (proj2 (proj2 (proj2 (proj2
             (closed_form_has_no_geometry_check exact_pow2 no_tan
                no_nsolve 0 0 0 2 2 4 0 0 (-4))))))
             0 4 4 16 0 0 16 0 P0 P2 P2 P4 P0 P0 Pm P0)%float. }
  split; [exact E6|].
  exact (proj2 (proj2 (proj2 (proj2 (proj2
           (closed_form_has_no_geometry_check exact_pow2 no_tan
              no_nsolve 0 0 0 2 2 4 0 0 (-4)))))) infinity E6).
Defined.

(** C2 fails as stated: on the bench geometry [alpha2] returns -1, the root
    with the positive square root, where the branch with the negative
    square root is -0. *)
Lemma alpha2_is_not_on_the_negative_branch :
  alpha2 exact_pow2 no_tan no_nsolve 0 0 0 1 2 4 0 0 (-4) false
  = Ok (-1)%float /\
  neg_sqrt_root (alpha2_B 0 0 0 1 2 4 0 0 (-4))
                (alpha2_D 0 0 0 1 2 4 0 0 (-4) 0 1 4 16 0 0 16 0)
                (2 - 4)
  = (-0)%float /\
  alpha2 exact_pow2 no_tan no_nsolve 0 0 0 1 2 4 0 0 (-4) false
  <> Ok (neg_sqrt_root (alpha2_B 0 0 0 1 2 4 0 0 (-4))
                       (alpha2_D 0 0 0 1 2 4 0 0 (-4) 0 1 4 16 0 0 16 0)
                       (2 - 4)).
Proof.
  split; [vm_compute; reflexivity|].
  split; [vm_compute; reflexivity|].
  intro H. apply (f_equal (value_or 0%float)) in H. revert H.
  apply (float_neq _ _ (-0.5)%float). vm_compute. reflexivity.
Qed.

Lemma closed_form_branches_witness :
  (alpha1 exact_pow2 no_tan no_nsolve 0 0 0 1 2 3 0 0 (-4) false
   = Ok 2%float /\
   exists a2s d2s d4s d5s m2hdxs xs,
     exact_pow2 0 = Ok a2s /\ exact_pow2 1 = Ok d2s /\
     exact_pow2 2 = Ok d4s /\ exact_pow2 3 = Ok d5s /\
     exact_pow2 0 = Ok m2hdxs /\ exact_pow2 (-4) = Ok xs /\
     2%float = neg_sqrt_root (alpha1_B 0 0 0 1 2 3 0 0 (-4))
                             (alpha1_D 0 0 0 1 2 3 0 0 (-4)
                                       a2s d2s d4s d5s m2hdxs xs)
                             (2 - 3)) /\
  (alpha2 exact_pow2 no_tan no_nsolve 0 0 0 1 2 4 0 0 (-4) false
   = Ok (-1)%float /\
   exists a1s d2s d4s d6s xp0s m1hdxs xs x0s,
     exact_pow2 0 = Ok a1s /\ exact_pow2 1 = Ok d2s /\
     exact_pow2 2 = Ok d4s /\ exact_pow2 4 = Ok d6s /\
     exact_pow2 0 = Ok xp0s /\ exact_pow2 0 = Ok m1hdxs /\
     exact_pow2 (-4) = Ok xs /\ exact_pow2 0 = Ok x0s /\
     (-1)%float = pos_sqrt_root (alpha2_B 0 0 0 1 2 4 0 0 (-4))
                                (alpha2_D 0 0 0 1 2 4 0 0 (-4)
                                          a1s d2s d4s d6s xp0s m1hdxs xs x0s)
                                (2 - 4)) /\
  ((4 * 4 == Exact.alpha1_D 0 0 0 1 2 3 0 0 (-4))%Q /\
   (~ 2 - 3 == 0)%Q /\
   (4 * (2 - 3)
    * ((Exact.alpha1_B 0 0 0 1 2 3 0 0 (-4) - 4) / (4 * (2 - 3)))
    * ((Exact.alpha1_B 0 0 0 1 2 3 0 0 (-4) - 4) / (4 * (2 - 3)))
    - 2 * Exact.alpha1_B 0 0 0 1 2 3 0 0 (-4)
      * ((Exact.alpha1_B 0 0 0 1 2 3 0 0 (-4) - 4) / (4 * (2 - 3)))
    + Exact.alpha1_K 0 0 0 1 2 3 0 0 (-4) == 0)%Q) /\
  ((4 * 4 == Exact.alpha2_D 0 0 0 1 2 4 0 0 (-4))%Q /\
   (~ 2 - 4 == 0)%Q /\
   (4 * (2 - 4)
    * ((Exact.alpha2_B 0 0 0 1 2 4 0 0 (-4) + 4) / (4 * (2 - 4)))
    * ((Exact.alpha2_B 0 0 0 1 2 4 0 0 (-4) + 4) / (4 * (2 - 4)))
    - 2 * Exact.alpha2_B 0 0 0 1 2 4 0 0 (-4)
      * ((Exact.alpha2_B 0 0 0 1 2 4 0 0 (-4) + 4) / (4 * (2 - 4)))
    + Exact.alpha2_K 0 0 0 1 2 4 0 0 (-4) == 0)%Q).
Proof.
  assert (E1 : alpha1 exact_pow2 no_tan no_nsolve 0 0 0 1 2 3 0 0 (-4) false
               = Ok 2%float) by (vm_compute; reflexivity).
  assert (E2 : alpha2 exact_pow2 no_tan no_nsolve 0 0 0 1 2 4 0 0 (-4) false
               = Ok (-1)%float) by (vm_compute; reflexivity).
  assert (S1 : (4 * 4 == Exact.alpha1_D 0 0 0 1 2 3 0 0 (-4))%Q)
    by (vm_compute; reflexivity).
  assert (N1 : (~ 2 - 3 == 0)%Q)
    by (intro H; vm_compute in H; discriminate H).
  assert (S2 : (4 * 4 == Exact.alpha2_D 0 0 0 1 2 4 0 0 (-4))%Q)
    by (vm_compute; reflexivity).
  assert (N2 : (~ 2 - 4 == 0)%Q)
    by (intro H; vm_compute in H; discriminate H).
  split; [split; [exact E1|]|].
  { exact (proj1 (closed_form_branches exact_pow2 no_tan no_nsolve)
             0 0 0 1 2 3 0 0 (-4) 2 E1)%float. }
  split; [split; [exact E2|]|].
  { exact (proj1 (proj2 (closed_form_branches exact_pow2 no_tan no_nsolve))
             0 0 0 1 2 4 0 0 (-4) (-1) E2)%float. }
  split; [split; [exact S1 | split; [exact N1|]]|].
  { exact (proj1 (proj2 (proj2
             (closed_form_branches exact_pow2 no_tan no_nsolve)))
             0 0 0 1 2 3 0 0 (-4) 4 S1 N1)%Q. }
  split; [exact S2 | split; [exact N2|]].
  exact (proj2 (proj2 (proj2
           (closed_form_branches exact_pow2 no_tan no_nsolve)))
           0 0 0 1 2 4 0 0 (-4) 4 S2 N2)%Q.
Defined.

End GeometryOnTheBench.

(** ** The execution monad *)

Section MonadFacts.

Import Py.
Context {S A B : Type}.

Lemma bind_ok (m : M S A) (k : A -> M S B) s a s' :
  m s = (Ok a, s') -> bind m k s = k a s'.
Proof. unfold bind. intros ->. reflexivity. Qed.

Lemma bind_raise (m : M S A) (k : A -> M S B) s e s' :
  m s = (Raise e, s') -> bind m k s = (Raise e, s').
Proof. unfold bind. intros ->. reflexivity. Qed.

Lemma bind_out_of_fuel (m : M S A) (k : A -> M S B) s s' :
  m s = (OutOfFuel, s') -> bind m k s = (OutOfFuel, s').
Proof. unfold bind. intros ->. reflexivity. Qed.

End MonadFacts.

(** ** IterWalker: what a computation leaves alone *)

Section Frame.

Import Py IterWalk IterWalkSpec.
Local Open Scope py_scope.

Variable sp_pow2 : float -> res float.
Variable sp_tan : float -> float.
Variable sp_nsolve : (float -> float) -> float -> res float.

Lemma puts_app l l' : puts (l ++ l') = puts l ++ puts l'.
Proof. apply filter_app. Qed.

Lemma quiet_ret {A} (a : A) : quiet (ret a).
Proof. intro st. split; reflexivity. Qed.

Lemma quiet_raise {A} e : quiet (@raise state A e).
Proof. intro st. split; reflexivity. Qed.

Lemma quiet_lift {A} (r : res A) : quiet (lift r).
Proof. intro st. split; reflexivity. Qed.

Lemma quiet_attr {A} (f : IterWalker -> A) : quiet (attr f).
Proof. intro st. split; reflexivity. Qed.

Lemma quiet_assign f : quiet (assign f).
Proof. intro st. split; reflexivity. Qed.

Lemma quiet_read d a proj : quiet (read d a proj).
Proof.
  intro st. split; [reflexivity|].
  cbn. rewrite puts_app. cbn. apply app_nil_r.
Qed.

Lemma quiet_bind {A B} (m : M state A) (k : A -> M state B) :
  quiet m -> (forall a, quiet (k a)) -> quiet (bind m k).
Proof.
  intros Hm Hk st. unfold bind.
  destruct (Hm st) as [Hd Hp].
  destruct (m st) as [[a | e |] st1]; cbn in Hd, Hp; cbn;
    try (split; assumption).
  destruct (Hk a st1) as [Hd' Hp'].
  split; congruence.
Qed.

Lemma selfless_ret {A} (a : A) : selfless (ret a).
Proof. intro st. reflexivity. Qed.

Lemma selfless_raise {A} e : selfless (@raise state A e).
Proof. intro st. reflexivity. Qed.

Lemma selfless_lift {A} (r : res A) : selfless (lift r).
Proof. intro st. reflexivity. Qed.

Lemma selfless_attr {A} (f : IterWalker -> A) : selfless (attr f).
Proof. intro st. reflexivity. Qed.

Lemma selfless_read d a proj : selfless (read d a proj).
Proof. intro st. reflexivity. Qed.

Lemma selfless_bind {A B} (m : M state A) (k : A -> M state B) :
  selfless m -> (forall a, selfless (k a)) -> selfless (bind m k).
Proof.
  intros Hm Hk st. unfold bind.
  pose proof (Hm st) as Hs.
  destruct (m st) as [[a | e |] st1]; cbn in Hs; cbn; try assumption.
  rewrite (Hk a st1). assumption.
Qed.

Create HintDb frame.

#[local] Hint Resolve quiet_ret quiet_raise quiet_lift quiet_attr quiet_assign
     quiet_read : frame.
#[local] Hint Resolve selfless_ret selfless_raise selfless_lift selfless_attr
     selfless_read : frame.

Ltac frame :=
  repeat first
    [ apply quiet_bind; [|intro]
    | apply selfless_bind; [|intro]
    | solve [auto with frame] ].

Lemma quiet_pixel_offset p xsz : quiet (pixel_offset p xsz).
Proof. destruct p; cbn; auto with frame. Qed.

Lemma selfless_pixel_offset p xsz : selfless (pixel_offset p xsz).
Proof. destruct p; cbn; auto with frame. Qed.

#[local] Hint Resolve quiet_pixel_offset selfless_pixel_offset : frame.

Lemma quiet_goal_x_1 : quiet goal_x_1.
Proof. unfold goal_x_1. frame. Qed.

Lemma quiet_goal_x_2 : quiet goal_x_2.
Proof. unfold goal_x_2. frame. Qed.

Lemma selfless_goal_x_1 : selfless goal_x_1.
Proof. unfold goal_x_1. frame. Qed.

Lemma selfless_goal_x_2 : selfless goal_x_2.
Proof. unfold goal_x_2. frame. Qed.

#[local] Hint Resolve quiet_goal_x_1 quiet_goal_x_2 selfless_goal_x_1
     selfless_goal_x_2 : frame.

Lemma quiet_alpha_1_calc : quiet (_alpha_1_calc sp_pow2 sp_tan sp_nsolve).
Proof. unfold _alpha_1_calc. frame. Qed.

Lemma quiet_alpha_2_calc : quiet (_alpha_2_calc sp_pow2 sp_tan sp_nsolve).
Proof. unfold _alpha_2_calc. frame. Qed.

Lemma selfless_alpha_1_calc : selfless (_alpha_1_calc sp_pow2 sp_tan sp_nsolve).
Proof. unfold _alpha_1_calc. frame. Qed.

Lemma selfless_alpha_2_calc : selfless (_alpha_2_calc sp_pow2 sp_tan sp_nsolve).
Proof. unfold _alpha_2_calc. frame. Qed.

#[local] Hint Resolve quiet_alpha_1_calc quiet_alpha_2_calc selfless_alpha_1_calc
     selfless_alpha_2_calc : frame.

(** [step] reads: it writes to no device and updates no attribute of
    the walker. *)
Lemma step_reads_only :
  quiet (step sp_pow2 sp_tan sp_nsolve) /\ selfless (step sp_pow2 sp_tan sp_nsolve).
Proof. split; unfold step; frame. Qed.

Lemma quiet_align_body i : quiet (align_body sp_pow2 sp_tan sp_nsolve i).
Proof. unfold align_body. frame. Qed.

Lemma quiet_for_each {A} (l : list A) (body : A -> M state unit) :
  (forall x, quiet (body x)) -> quiet (for_each l body).
Proof.
  intro Hb. induction l as [|x l IH]; cbn [for_each].
  - apply quiet_ret.
  - apply quiet_bind; [apply Hb | intro; exact IH].
Qed.

End Frame.

(** ** IterWalker: what the methods compute *)

Section Runs.

Import Py IterWalk IterWalkSpec.
Local Open Scope py_scope.

Variable sp_pow2 : float -> res float.
Variable sp_tan : float -> float.
Variable sp_nsolve : (float -> float) -> float -> res float.

Lemma alpha_1_calc_run st p :
  p1 (self st) = Some p ->
  _alpha_1_calc sp_pow2 sp_tan sp_nsolve st
  = (solve_1 sp_pow2 sp_tan sp_nsolve (devs st) (tan (self st)) p
             (_alpha_2 (self st)),
     after_reads st calc1_reads).
Proof.
  intro Hp.
  unfold _alpha_1_calc, goal_x_1, bind, read, attr, gets, lift; cbn.
  rewrite Hp. cbn.
  unfold after_reads, calc1_reads.
  repeat rewrite <- app_assoc. reflexivity.
Qed.

Lemma alpha_2_calc_run st q :
  p2 (self st) = Some q ->
  _alpha_2_calc sp_pow2 sp_tan sp_nsolve st
  = (solve_2 sp_pow2 sp_tan sp_nsolve (devs st) (tan (self st)) q
             (_alpha_1 (self st)),
     after_reads st calc2_reads).
Proof.
  intro Hq.
  unfold _alpha_2_calc, goal_x_2, bind, read, attr, gets, lift; cbn.
  rewrite Hq. cbn.
  unfold after_reads, calc2_reads.
  repeat rewrite <- app_assoc. reflexivity.
Qed.

(** One pass through the body of the loop of [align], when its two solves
    return. *)
Lemma align_body_run st p q i a :
  p1 (self st) = Some p ->
  p2 (self st) = Some q ->
  refine sp_pow2 sp_tan sp_nsolve (devs st) (tan (self st)) p q
         (_alpha_1 (self st), _alpha_2 (self st)) = Ok a ->
  align_body sp_pow2 sp_tan sp_nsolve i st
  = (Ok tt,
     {| self := with_alphas (self st) a;
        devs := devs st;
        log := log st ++ calc1_reads ++ calc2_reads |}).
Proof.
  intros Hp Hq Hr. unfold refine in Hr. cbn [fst snd] in Hr.
  apply and_then_Ok in Hr. destruct Hr as (a1 & E1 & Hr).
  apply and_then_Ok in Hr. destruct Hr as (a2 & E2 & Hr).
  assert (Ha : a = (a1, a2)).
  { apply (f_equal (value_or a)) in Hr. cbn in Hr. symmetry. exact Hr. }
  subst a. clear Hr.
  unfold align_body.
  rewrite (bind_ok _ _ _ _ _
             (eq_trans (alpha_1_calc_run st p Hp)
                       (f_equal (fun r => (r, _)) E1))).
  unfold bind at 1. cbn [assign modify].
  match goal with |- bind _ _ ?s = _ => set (st1 := s) end.
  assert (Hq1 : p2 (self st1) = Some q) by exact Hq.
  assert (E2' : solve_2 sp_pow2 sp_tan sp_nsolve (devs st1) (tan (self st1))
                        q (_alpha_1 (self st1)) = Ok a2) by exact E2.
  rewrite (bind_ok _ _ _ _ _
             (eq_trans (alpha_2_calc_run st1 q Hq1)
                       (f_equal (fun r => (r, _)) E2'))).
  subst st1. unfold assign, modify, after_reads, with_alphas.
  cbn [self devs log fst snd]. rewrite <- app_assoc. reflexivity.
Qed.

Lemma with_alphas_idem w a b :
  with_alphas (with_alphas w a) b = with_alphas w b.
Proof. reflexivity. Qed.

Lemma with_alphas_same w :
  with_alphas w (_alpha_1 w, _alpha_2 w) = w.
Proof. destruct w; reflexivity. Qed.

(** The loop of [align] over any list of indices, when all its solves
    return: as many refinements as the list is long, each one reading the
    devices anew. *)
Lemma loop_run (l : list Z) :
  forall st p q a,
    p1 (self st) = Some p ->
    p2 (self st) = Some q ->
    refine_n sp_pow2 sp_tan sp_nsolve (List.length l) (devs st)
             (tan (self st)) p q
             (_alpha_1 (self st), _alpha_2 (self st)) = Ok a ->
    for_each l (align_body sp_pow2 sp_tan sp_nsolve) st
    = (Ok tt,
       {| self := with_alphas (self st) a;
          devs := devs st;
          log := log st ++ loop_reads (List.length l) |}).
Proof.
  induction l as [|i l IH]; intros st p q a Hp Hq Hr.
  - cbn in Hr. apply (f_equal (value_or a)) in Hr. cbn in Hr. subst a.
    cbn. rewrite with_alphas_same, app_nil_r. destruct st; reflexivity.
  - cbn [List.length refine_n] in Hr.
    apply and_then_Ok in Hr. destruct Hr as (a' & E & Hr).
    cbn [for_each List.length loop_reads].
    rewrite (bind_ok _ _ _ _ _ (align_body_run st p q i a' Hp Hq E)).
    cbv beta.
    match goal with
    | |- for_each _ _ ?s = _ => rewrite (IH s p q a Hp Hq)
    end.
    + cbn [self devs log]. rewrite with_alphas_idem.
      repeat rewrite <- app_assoc. reflexivity.
    + destruct a' as [x y]. exact Hr.
Qed.

Lemma length_range n : List.length (range n) = Z.to_nat n.
Proof. unfold range. rewrite length_map, length_seq. reflexivity. Qed.

(** The state [align] reaches before its loop. *)
Lemma align_unfold p1' p2' mv st :
  align sp_pow2 sp_tan sp_nsolve p1' p2' mv st
  = (for_each (range (max_n (self st))) (align_body sp_pow2 sp_tan sp_nsolve) ;;
     (if is_True mv then
        a1 <- attr _alpha_1 ;;
        a2 <- attr _alpha_2 ;;
        _move_mirrors a1 a2
      else ret tt) ;;
     a1 <- attr _alpha_1 ;;
     a2 <- attr _alpha_2 ;;
     ret (a1, a2))
      {| self := with_targets (self st) p1' p2';
         devs := devs st; log := log st |}.
Proof.
  unfold align, with_targets.
  destruct st as [w ds lg]; destruct p1', p2'; reflexivity.
Qed.

Lemma target_with_targets_1 w p1' p2' :
  p1 (with_targets w p1' p2') = target (p1 w) p1'.
Proof. destruct p1', p2'; reflexivity. Qed.

Lemma target_with_targets_2 w p1' p2' :
  p2 (with_targets w p1' p2') = target (p2 w) p2'.
Proof. destruct p1', p2'; reflexivity. Qed.

Lemma with_targets_keeps w p1' p2' :
  tan (with_targets w p1' p2') = tan w /\
  max_n (with_targets w p1' p2') = max_n w /\
  _alpha_1 (with_targets w p1' p2') = _alpha_1 w /\
  _alpha_2 (with_targets w p1' p2') = _alpha_2 w.
Proof. destruct p1', p2'; repeat split. Qed.

End Runs.

(** ** IterWalker: the claims *)

Section IterWalkerClaims.

Import Py IterWalk IterWalkSpec.
Local Open Scope py_scope.

Variable sp_pow2 : float -> res float.
Variable sp_tan : float -> float.
Variable sp_nsolve : (float -> float) -> float -> res float.



(** C9, as amended: with a budget of 0, [align] reads no device and
    returns the angle estimates it held before the call, which stay its
    estimates; it moves nothing unless [move] is True, in which case it
    writes exactly that unrefined pair to the two mirrors. *)
Theorem align_without_budget :
  forall st p1' p2' mv,
    max_n (self st) = 0%Z ->
    let a := (_alpha_1 (self st), _alpha_2 (self st)) in
    let r := align sp_pow2 sp_tan sp_nsolve p1' p2' mv st in
    fst r = Ok a /\
    (_alpha_1 (self (snd r)), _alpha_2 (self (snd r))) = a /\
    log (snd r)
    = log st ++ (if is_True mv then commit_puts (fst a) (snd a) else []) /\
    devs (snd r)
    = (if is_True mv then committed (devs st) (fst a) (snd a)
       else devs st).
Proof.
  intros st p1' p2' mv Hn a r. subst r a.
  rewrite align_unfold, Hn.
  destruct (with_targets_keeps (self st) p1' p2') as (_ & _ & K1 & K2).
  destruct (is_True mv); cbn; rewrite K1, K2, ?app_nil_r, <- ?app_assoc;
    repeat split; reflexivity.
Qed.

(** C10: when [move] is any value other than True itself, [align] leaves
    the devices as they are and issues no write, and it returns what it
    returns when [move] is True. *)
Theorem align_moves_only_on_True :
  forall st p1' p2' mv,
    mv <> VBool true ->
    let r := align sp_pow2 sp_tan sp_nsolve p1' p2' mv st in
    devs (snd r) = devs st /\
    puts (log (snd r)) = puts (log st) /\
    fst r = fst (align sp_pow2 sp_tan sp_nsolve p1' p2' (VBool true) st).
Proof.
  intros st p1' p2' mv Hmv r. subst r.
  assert (Hf : is_True mv = false).
  { destruct mv as [| [|] | | | |]; try reflexivity. congruence. }
  rewrite !align_unfold. rewrite Hf. cbn [is_True].
  match goal with
  | |- context [bind _ _ ?s] => set (st0 := s)
  end.
  pose proof (quiet_for_each (range (max_n (self st)))
                (align_body sp_pow2 sp_tan sp_nsolve)
                (quiet_align_body sp_pow2 sp_tan sp_nsolve) st0) as [Hd Hl].
  destruct (for_each (range (max_n (self st)))
              (align_body sp_pow2 sp_tan sp_nsolve) st0) as [[[] | e |] st1] eqn:E;
    cbn in Hd, Hl.
  - rewrite !(bind_ok _ _ _ _ _ E). cbn. repeat split; assumption.
  - rewrite !(bind_raise _ _ _ _ _ E). cbn. repeat split; assumption.
  - rewrite !(bind_out_of_fuel _ _ _ _ E). cbn. repeat split; assumption.
Qed.

(** C5, as amended: the companion angle a solve uses is the walker's own
    estimate, [_alpha_2] for mirror 1 and [_alpha_1] for mirror 2, not a
    value read from the device at that moment: the accesses of a solve
    are reads of the source, of the mirror positions and of the imager,
    and the outcome is the same whatever angles the mirrors are at. *)
Theorem calc_uses_the_estimates :
  forall st p q,
    p1 (self st) = Some p ->
    p2 (self st) = Some q ->
    (_alpha_1_calc sp_pow2 sp_tan sp_nsolve st
     = (solve_1 sp_pow2 sp_tan sp_nsolve (devs st) (tan (self st)) p
                (_alpha_2 (self st)),
        after_reads st calc1_reads)) /\
    (_alpha_2_calc sp_pow2 sp_tan sp_nsolve st
     = (solve_2 sp_pow2 sp_tan sp_nsolve (devs st) (tan (self st)) q
                (_alpha_1 (self st)),
        after_reads st calc2_reads)) /\
    (forall v1 v2,
        fst (_alpha_1_calc sp_pow2 sp_tan sp_nsolve (retuned st v1 v2))
        = fst (_alpha_1_calc sp_pow2 sp_tan sp_nsolve st) /\
        fst (_alpha_2_calc sp_pow2 sp_tan sp_nsolve (retuned st v1 v2))
        = fst (_alpha_2_calc sp_pow2 sp_tan sp_nsolve st)).
Proof.
  intros st p q Hp Hq.
  split; [apply alpha_1_calc_run; exact Hp|].
  split; [apply alpha_2_calc_run; exact Hq|].
  intros v1 v2.
  rewrite (alpha_1_calc_run _ _ _ (retuned st v1 v2) p Hp).
  rewrite (alpha_2_calc_run _ _ _ (retuned st v1 v2) q Hq).
  rewrite (alpha_1_calc_run _ _ _ st p Hp), (alpha_2_calc_run _ _ _ st q Hq).
  split; reflexivity.
Qed.

(** X10: with both targets known, [step] runs the solve for mirror 1 and
    then the solve for mirror 2, each taking its companion angle from the
    estimates the walker held when [step] was called, and its outcome is
    theirs: the first exception, or the pair of the two values.  When both
    solves return, it has read the devices for the first solve and again
    for the second, and has changed nothing. *)
Lemma step_run st p q :
  p1 (self st) = Some p ->
  p2 (self st) = Some q ->
  fst (step sp_pow2 sp_tan sp_nsolve st)
  = (a1 <~ solve_1 sp_pow2 sp_tan sp_nsolve (devs st) (tan (self st)) p
                   (_alpha_2 (self st)) ;;
     a2 <~ solve_2 sp_pow2 sp_tan sp_nsolve (devs st) (tan (self st)) q
                   (_alpha_1 (self st)) ;;
     Ok (a1, a2)) /\
  (forall a1 a2,
      solve_1 sp_pow2 sp_tan sp_nsolve (devs st) (tan (self st)) p
              (_alpha_2 (self st)) = Ok a1 ->
      solve_2 sp_pow2 sp_tan sp_nsolve (devs st) (tan (self st)) q
              (_alpha_1 (self st)) = Ok a2 ->
      step sp_pow2 sp_tan sp_nsolve st
      = (Ok (a1, a2), after_reads st (calc1_reads ++ calc2_reads))).
Proof.
  intros Hp Hq.
  assert (H : forall a1 a2,
             solve_1 sp_pow2 sp_tan sp_nsolve (devs st) (tan (self st)) p
                     (_alpha_2 (self st)) = Ok a1 ->
             solve_2 sp_pow2 sp_tan sp_nsolve (devs st) (tan (self st)) q
                     (_alpha_1 (self st)) = Ok a2 ->
             step sp_pow2 sp_tan sp_nsolve st
             = (Ok (a1, a2), after_reads st (calc1_reads ++ calc2_reads))).
  { intros a1 a2 E1 E2. unfold step.
    rewrite (bind_ok _ _ _ _ _
               (eq_trans (alpha_1_calc_run _ _ _ st p Hp)
                         (f_equal (fun r => (r, _)) E1))).
    rewrite (bind_ok _ _ _ _ _
               (eq_trans (alpha_2_calc_run _ _ _ (after_reads st calc1_reads)
                                           q Hq)
                         (f_equal (fun r => (r, _)) E2))).
    unfold ret, after_reads. cbn [self devs log].
    rewrite <- app_assoc. reflexivity. }
  split; [|exact H].
  destruct (solve_1 sp_pow2 sp_tan sp_nsolve (devs st) (tan (self st)) p
                    (_alpha_2 (self st))) as [a1 | e |] eqn:E1.
  - destruct (solve_2 sp_pow2 sp_tan sp_nsolve (devs st) (tan (self st)) q
                      (_alpha_1 (self st))) as [a2 | e |] eqn:E2.
    + rewrite (H a1 a2 eq_refl eq_refl). reflexivity.
    + unfold step.
      rewrite (bind_ok _ _ _ _ _
                 (eq_trans (alpha_1_calc_run _ _ _ st p Hp)
                           (f_equal (fun r => (r, _)) E1))).
      rewrite (bind_raise _ _ _ _ _
                 (eq_trans (alpha_2_calc_run _ _ _
                              (after_reads st calc1_reads) q Hq)
                           (f_equal (fun r => (r, _)) E2))).
      reflexivity.
    + unfold step.
      rewrite (bind_ok _ _ _ _ _
                 (eq_trans (alpha_1_calc_run _ _ _ st p Hp)
                           (f_equal (fun r => (r, _)) E1))).
      rewrite (bind_out_of_fuel _ _ _ _
                 (eq_trans (alpha_2_calc_run _ _ _
                              (after_reads st calc1_reads) q Hq)
                           (f_equal (fun r => (r, _)) E2))).
      reflexivity.
  - unfold step.
    rewrite (bind_raise _ _ _ _ _
               (eq_trans (alpha_1_calc_run _ _ _ st p Hp)
                         (f_equal (fun r => (r, _)) E1))).
    reflexivity.
  - unfold step.
    rewrite (bind_out_of_fuel _ _ _ _
               (eq_trans (alpha_1_calc_run _ _ _ st p Hp)
                         (f_equal (fun r => (r, _)) E1))).
    reflexivity.
Qed.

End IterWalkerClaims.

(** ** IterWalker on the bench *)

Section OnTheBench.

Import Py IterWalk IterWalkSpec Bench.
Local Open Scope float_scope.

(** C3: on the bench, with both estimates at 0 and both targets at -4,
    [step] returns (2, -1).  Its second component is the solve for
    mirror 2 with the estimate 0 the walker held for mirror 1; with the
    angle 2 that [step] has just computed for mirror 1 the solve gives
    2, which is what one refinement as the specification words it
    returns. *)
Theorem step_pairs_the_stale_alpha_1 :
  fst (step exact_pow2 no_tan no_nsolve (fresh 1)) = Ok (2, -1) /\
  solve_2 exact_pow2 no_tan no_nsolve bench false (-4) 0 = Ok (-1) /\
  solve_2 exact_pow2 no_tan no_nsolve bench false (-4) 2 = Ok 2 /\
  refine exact_pow2 no_tan no_nsolve bench false (-4) (-4) (0, 0)
  = Ok (2, 2) /\
  fst (step exact_pow2 no_tan no_nsolve (fresh 1))
  <> refine exact_pow2 no_tan no_nsolve bench false (-4) (-4) (0, 0).
Proof.
  repeat split; try (vm_compute; reflexivity).
  intro H. apply (f_equal (fun r => snd (value_or (0, 0) r))) in H.
  revert H. apply (float_neq _ _ 0). vm_compute. reflexivity.
Qed.


Lemma align_without_budget_witness :
  max_n (self (fresh 0)) = 0%Z /\
  fst (align exact_pow2 no_tan no_nsolve None None (VBool true) (fresh 0)) = Ok (0, 0) /\
  (_alpha_1 (self (snd (align exact_pow2 no_tan no_nsolve None None (VBool true) (fresh 0)))),
   _alpha_2 (self (snd (align exact_pow2 no_tan no_nsolve None None (VBool true) (fresh 0)))))
  = (0, 0) /\
  log (snd (align exact_pow2 no_tan no_nsolve None None (VBool true) (fresh 0)))
  = log (fresh 0) ++ commit_puts 0 0 /\
  devs (snd (align exact_pow2 no_tan no_nsolve None None (VBool true) (fresh 0)))
  = committed bench 0 0.
Proof.
  split; [reflexivity|].
  exact (align_without_budget exact_pow2 no_tan no_nsolve (fresh 0) None None
                              (VBool true) eq_refl).
Defined.

(** C9 fails as stated: with a budget of 0 and [move] True, [align] writes
    to both mirrors.  On a walker just built the two writes are in the log;
    on a walker whose mirrors were turned to 1 after it was built they turn
    the mirrors back to 0. *)
Lemma align_without_budget_can_move :
  max_n (self (fresh 0)) = 0%Z /\
  puts (log (snd (align exact_pow2 no_tan no_nsolve None None (VBool true) (fresh 0))))
  = puts (log (fresh 0)) ++ [Put Mirror1 AAlpha 0; Put Mirror2 AAlpha 0] /\
  max_n (self stale) = 0%Z /\
  m_alpha (mirror_1 (devs stale)) = 1 /\
  fst (align exact_pow2 no_tan no_nsolve None None (VBool true) stale) = Ok (0, 0) /\
  m_alpha (mirror_1 (devs (snd (align exact_pow2 no_tan no_nsolve None None
                                      (VBool true) stale)))) = 0 /\
  devs (snd (align exact_pow2 no_tan no_nsolve None None (VBool true) stale))
  <> devs stale.
Proof.
  repeat split; try (vm_compute; reflexivity).
  intro H. apply (f_equal (fun ds => m_alpha (mirror_1 ds))) in H.
  revert H. apply (float_neq _ _ 0.5). vm_compute. reflexivity.
Qed.

Lemma align_moves_only_on_True_witness :
  VInt 1 <> VBool true /\
  devs (snd (align exact_pow2 no_tan no_nsolve None None (VInt 1) (fresh 1)))
  = devs (fresh 1) /\
  puts (log (snd (align exact_pow2 no_tan no_nsolve None None (VInt 1) (fresh 1))))
  = puts (log (fresh 1)) /\
  fst (align exact_pow2 no_tan no_nsolve None None (VInt 1) (fresh 1))
  = fst (align exact_pow2 no_tan no_nsolve None None (VBool true) (fresh 1)).
Proof.
  assert (H : VInt 1 <> VBool true) by discriminate.
  split; [exact H|].
  exact (align_moves_only_on_True exact_pow2 no_tan no_nsolve (fresh 1) None None
                                  (VInt 1) H).
Defined.

Lemma calc_uses_the_estimates_witness :
  p1 (self retargeted) = Some (-5) /\
  p2 (self retargeted) = Some (-4) /\
  (_alpha_1_calc exact_pow2 no_tan no_nsolve retargeted
   = (solve_1 exact_pow2 no_tan no_nsolve (devs retargeted) (tan (self retargeted))
              (-5) (_alpha_2 (self retargeted)),
      after_reads retargeted calc1_reads)) /\
  (_alpha_2_calc exact_pow2 no_tan no_nsolve retargeted
   = (solve_2 exact_pow2 no_tan no_nsolve (devs retargeted) (tan (self retargeted))
              (-4) (_alpha_1 (self retargeted)),
      after_reads retargeted calc2_reads)) /\
  (forall v1 v2,
      fst (_alpha_1_calc exact_pow2 no_tan no_nsolve (retuned retargeted v1 v2))
      = fst (_alpha_1_calc exact_pow2 no_tan no_nsolve retargeted) /\
      fst (_alpha_2_calc exact_pow2 no_tan no_nsolve (retuned retargeted v1 v2))
      = fst (_alpha_2_calc exact_pow2 no_tan no_nsolve retargeted)).
Proof.
  split; [reflexivity|]. split; [reflexivity|].
  exact (calc_uses_the_estimates exact_pow2 no_tan no_nsolve retargeted (-5) (-4)
                                 eq_refl eq_refl).
Defined.

(** C5 fails as stated: after an [align] that refined the estimates to
    (2, 2) and did not move the mirrors, mirror 2 is still at 0; the next
    solve for mirror 1, for the target -5, returns 3, the solve with the
    cached estimate 2, and not 2.5, the solve with the angle 0 the device
    would give. *)
Lemma calc_uses_a_cached_angle :
  m_alpha (mirror_2 (devs retargeted)) = 0 /\
  _alpha_2 (self retargeted) = 2 /\
  fst (_alpha_1_calc exact_pow2 no_tan no_nsolve retargeted) = Ok 3 /\
  solve_1 exact_pow2 no_tan no_nsolve (devs retargeted) false (-5)
          (m_alpha (mirror_2 (devs retargeted))) = Ok 2.5 /\
  fst (_alpha_1_calc exact_pow2 no_tan no_nsolve retargeted)
  <> solve_1 exact_pow2 no_tan no_nsolve (devs retargeted) false (-5)
             (m_alpha (mirror_2 (devs retargeted))).
Proof.
  repeat split; try (vm_compute; reflexivity).
  intro H. apply (f_equal (value_or 0)) in H.
  revert H. apply (float_neq _ _ 2.75). vm_compute. reflexivity.
Qed.

End OnTheBench.

(** ** Skywalker *)

Section SkywalkerFacts.

Import Py Skywalker.
Local Open Scope string_scope.

Variable import_model : string -> res Model.
Variable build : res Model.

(** In the global scope of skywalker.py the first statement of [walk]
    raises, whatever the mode and the dispatcher. *)
Lemma walk_unbound_kwargs fuel mode st :
  walk module_globals import_model build fuel mode st
  = (Raise (NameError "kwargs"), st).
Proof. reflexivity. Qed.

(** Once [kwargs] is bound, [_modelwalk] does what its code is written
    for: with no model and no request to load one, it raises the
    no-model error before any call to a collaborator. *)
Lemma modelwalk_without_model g kw st :
  g_kwargs g = Some kw ->
  get (kw_model kw) (model (self st)) = None ->
  requested (get (kw_load_model kw) (load_model (self st))) = false ->
  fst (_modelwalk g import_model st) = Raise CNCException /\
  log (snd (_modelwalk g import_model st)) = log st.
Proof.
  intros Hg Hm Hl.
  unfold _modelwalk, global_kwargs. rewrite Hg.
  unfold bind, ret, assign, modify, attr, gets; cbn.
  rewrite Hl, Hm. cbn. split; reflexivity.
Qed.

(** [_iterwalk] calls the iter walker's [step] in no case: its loop
    tests a bound method, which is true, so the negated condition is
    false on entry. *)
Lemma iterwalk_never_steps g fuel st :
  filter is_iter_step (log (snd (_iterwalk g fuel st)))
  = filter is_iter_step (log st).
Proof.
  unfold _iterwalk, global_kwargs, new_IterWalker.
  destruct (g_kwargs g) as [kw|]; [|reflexivity].
  unfold bind, ret, assign, modify, attr, gets; cbn.
  destruct (get (kw_iter_walker kw) (iter_walker (self st))) as [o|].
  - destruct fuel; reflexivity.
  - destruct (g_IterWalker g); reflexivity.
Qed.

(** X23: [walk] in mode iter takes no step of the iter walker: in any
    global scope, with any fuel, whatever the centroids are and whatever
    the outcome is, the steps in the log are those that were there. *)
Lemma walk_iter_never_steps g fuel st :
  filter is_iter_step
         (log (snd (walk g import_model build fuel "iter" st)))
  = filter is_iter_step (log st).
Proof.
  unfold walk, global_kwargs.
  destruct (g_kwargs g) as [kw|] eqn:Hg; [|reflexivity].
  change ("iter" =? "iter") with true. cbv iota.
  repeat (erewrite bind_ok; [|reflexivity]).
  rewrite iterwalk_never_steps. reflexivity.
Qed.

(** X24: with [kwargs] bound, [walk] in mode model raises the no-model
    error before any call to a collaborator, for every dispatcher that,
    [kwargs] included, has no model and no request to load one. *)
Lemma walk_model_without_model g kw fuel st :
  g_kwargs g = Some kw ->
  get (kw_model kw) (model (self st)) = None ->
  requested (get (kw_load_model kw) (load_model (self st))) = false ->
  fst (walk g import_model build fuel "model" st) = Raise CNCException /\
  log (snd (walk g import_model build fuel "model" st)) = log st.
Proof.
  intros Hg Hm Hl.
  unfold walk, global_kwargs. rewrite Hg.
  change ("model" =? "iter") with false.
  change ("model" =? "model") with true. cbv iota.
  repeat (erewrite bind_ok; [|reflexivity]).
  match goal with
  | |- context [_modelwalk g import_model ?s] =>
      destruct (modelwalk_without_model g kw s Hg) as [Hr Hlog]
  end.
  - cbn. destruct (kw_model kw) as [m|]; cbn in Hm |- *; exact Hm.
  - cbn. destruct (kw_load_model kw) as [l|]; cbn in Hl |- *; exact Hl.
  - split; assumption.
Qed.

End SkywalkerFacts.

(** C6: for a dispatcher with no model and no request to load one,
    [walk] in mode model raises the NameError of the unbound [kwargs] and
    not the no-model error; no collaborator has been called by then.  With
    [kwargs] bound the same call raises the no-model error. *)
Theorem walk_model_raises_NameError :
  Skywalker.model (Skywalker.self (Bench.sky None None)) = None /\
  Skywalker.load_model (Skywalker.self (Bench.sky None None)) = None /\
  Skywalker.walk Skywalker.module_globals Bench.no_import Bench.no_build
                 1 "model" (Bench.sky None None)
  = (Py.Raise (Py.NameError "kwargs"), Bench.sky None None) /\
  Skywalker.walk Bench.patched_globals Bench.no_import Bench.no_build
                 1 "model" (Bench.sky None None)
  = (Py.Raise Py.CNCException, Bench.sky None None).
Proof.
  repeat split.
Qed.

(** C7: for a dispatcher whose observed centroids (1, 1) are not at the
    targets (0, 0), [walk] in mode iter raises the NameError of the unbound
    [kwargs] and takes no step; with [kwargs] bound it returns at once,
    again without a step, because the loop condition is false on entry. *)
Theorem walk_iter_takes_no_step :
  Skywalker.centroids_match (Bench.sky None None) = false /\
  Skywalker.walk Skywalker.module_globals Bench.no_import Bench.no_build
                 1 "iter" (Bench.sky None None)
  = (Py.Raise (Py.NameError "kwargs"), Bench.sky None None) /\
  Skywalker.walk Bench.patched_globals Bench.no_import Bench.no_build
                 1 "iter" (Bench.sky None None)
  = (Py.Ok tt, Bench.sky None None).
Proof.
  repeat split.
Qed.

(** ** The closed-form solves at their edges *)

Section GeometryEdges.

Import Py Geometry.
Local Open Scope float_scope.

Variable sp_pow2 : float -> res float.
Variable sp_tan : float -> float.
Variable sp_nsolve : (float -> float) -> float -> res float.

Lemma negative_sqrt_is_nan (D : float) :
  (D <? 0) = true -> Prim2SF (sqrt D) = S754_nan.
Proof.
  rewrite ltb_spec, sqrt_spec.
  assert (H0 : Prim2SF 0 = S754_zero false) by reflexivity.
  rewrite H0. unfold SF64sqrt.
  destruct (Prim2SF D) as [[|] | [|] | | [|] m e]; cbn;
    try discriminate; reflexivity.
Qed.

Lemma is_nan_of_spec (v : float) : Prim2SF v = S754_nan -> is_nan v = true.
Proof.
  intro H. unfold is_nan. rewrite FloatAxioms.eqb_spec, H. reflexivity.
Qed.

Lemma sub_nan_r (B s : float) :
  Prim2SF s = S754_nan -> Prim2SF (B - s) = S754_nan.
Proof.
  intro H. rewrite sub_spec, H. unfold SF64sub.
  destruct (Prim2SF B) as [[|] | [|] | | [|] m e]; reflexivity.
Qed.

Lemma add_nan_r (B s : float) :
  Prim2SF s = S754_nan -> Prim2SF (B + s) = S754_nan.
Proof.
  intro H. rewrite add_spec, H. unfold SF64add.
  destruct (Prim2SF B) as [[|] | [|] | | [|] m e]; reflexivity.
Qed.

Lemma div_nan_l (n d : float) :
  Prim2SF n = S754_nan -> Prim2SF (n / d) = S754_nan.
Proof.
  intro H. rewrite div_spec, H. reflexivity.
Qed.

(** X1: where the powers are taken and the argument of the square root is
    negative, the quadratic has no real root and each closed-form solve
    returns a NaN; it raises nothing. *)
Theorem closed_form_without_real_root :
  forall x0 xp0 a d2 d4 d m1hdx m2hdx x : float,
    (forall a2s d2s d4s d5s m2hdxs xs,
        sp_pow2 a = Ok a2s -> sp_pow2 d2 = Ok d2s -> sp_pow2 d4 = Ok d4s ->
        sp_pow2 d = Ok d5s -> sp_pow2 m2hdx = Ok m2hdxs ->
        sp_pow2 x = Ok xs ->
        (alpha1_D x0 xp0 a d2 d4 d m1hdx m2hdx x a2s d2s d4s d5s m2hdxs xs
         <? 0) = true ->
        exists v,
          alpha1 sp_pow2 sp_tan sp_nsolve x0 xp0 a d2 d4 d m1hdx m2hdx x false
          = Ok v /\
          is_nan v = true) /\
    (forall a1s d2s d4s d6s xp0s m1hdxs xs x0s,
        sp_pow2 a = Ok a1s -> sp_pow2 d2 = Ok d2s -> sp_pow2 d4 = Ok d4s ->
        sp_pow2 d = Ok d6s -> sp_pow2 xp0 = Ok xp0s ->
        sp_pow2 m1hdx = Ok m1hdxs -> sp_pow2 x = Ok xs ->
        sp_pow2 x0 = Ok x0s ->
        (alpha2_D x0 xp0 a d2 d4 d m1hdx m2hdx x
                  a1s d2s d4s d6s xp0s m1hdxs xs x0s <? 0) = true ->
        exists v,
          alpha2 sp_pow2 sp_tan sp_nsolve x0 xp0 a d2 d4 d m1hdx m2hdx x false
          = Ok v /\
          is_nan v = true).
Proof.
  intros. split.
  - intros a2s d2s d4s d5s m2hdxs xs E1 E2 E3 E4 E5 E6 H.
    unfold alpha1, alpha1_closed.
    rewrite E1, E2, E3, E4, E5, E6. cbn [and_then].
    eexists. split; [reflexivity|].
    apply is_nan_of_spec, div_nan_l, sub_nan_r, negative_sqrt_is_nan, H.
  - intros a1s d2s d4s d6s xp0s m1hdxs xs x0s E1 E2 E3 E4 E5 E6 E7 E8 H.
    unfold alpha2, alpha2_closed.
    rewrite E1, E2, E3, E4, E5, E6, E7, E8. cbn [and_then].
    eexists. split; [reflexivity|].
    apply is_nan_of_spec, div_nan_l, add_nan_r, negative_sqrt_is_nan, H.
Qed.

End GeometryEdges.

Section GeometryEdgesOnTheBench.

Import Py Geometry Bench.
Local Open Scope float_scope.

Lemma closed_form_without_real_root_witness :
  ((alpha1_D 0 0 2 1 2 3 0 0 1 4 1 4 9 0 1 <? 0) = true /\
   exists v,
     alpha1 exact_pow2 no_tan no_nsolve 0 0 2 1 2 3 0 0 1 false = Ok v /\
     is_nan v = true) /\
  ((alpha2_D 0 0 2 1 2 4 0 0 1 4 1 4 16 0 0 1 0 <? 0) = true /\
   exists v,
     alpha2 exact_pow2 no_tan no_nsolve 0 0 2 1 2 4 0 0 1 false = Ok v /\
     is_nan v = true).
Proof.
  assert (H1 : (alpha1_D 0 0 2 1 2 3 0 0 1 4 1 4 9 0 1 <? 0) = true)
    by reflexivity.
  assert (H2 : (alpha2_D 0 0 2 1 2 4 0 0 1 4 1 4 16 0 0 1 0 <? 0) = true)
    by reflexivity.
  split; (split; [assumption|]).
  - exact (proj1 (closed_form_without_real_root exact_pow2 no_tan no_nsolve
                    0 0 2 1 2 3 0 0 1)
             4 1 4 9 0 1 eq_refl eq_refl eq_refl eq_refl eq_refl eq_refl H1).
  - exact (proj2 (closed_form_without_real_root exact_pow2 no_tan no_nsolve
                    0 0 2 1 2 4 0 0 1)
             4 1 4 16 0 0 1 0 eq_refl eq_refl eq_refl eq_refl eq_refl eq_refl
             eq_refl eq_refl H2).
Defined.

End GeometryEdgesOnTheBench.

(** ** The two solve modes against each other *)

Section SolveModes.

Import Py Geometry.
Local Open Scope float_scope.

Variable sp_pow2 : float -> res float.
Variable sp_tan : float -> float.
Variable sp_nsolve : (float -> float) -> float -> res float.





End SolveModes.

Section SolveModesOnTheBench.

Import Py Geometry Bench.
Local Open Scope float_scope.



End SolveModesOnTheBench.

(** ** IterWalker: what the outcome of a computation depends on *)

Section Probes.

Import Py IterWalk IterWalkSpec Frames.
Local Open Scope py_scope.

Variable sp_pow2 : float -> res float.
Variable sp_tan : float -> float.
Variable sp_nsolve : (float -> float) -> float -> res float.

Lemma same_world_refl st : same_world st st.
Proof. split; reflexivity. Qed.

Lemma blind_ret {A} (a : A) : log_blind (ret a).
Proof. intros st st' H. split; [reflexivity | exact H]. Qed.

Lemma blind_raise {A} e : log_blind (@raise state A e).
Proof. intros st st' H. split; [reflexivity | exact H]. Qed.

Lemma blind_lift {A} (r : res A) : log_blind (lift r).
Proof. intros st st' H. split; [reflexivity | exact H]. Qed.

Lemma blind_attr {A} (f : IterWalker -> A) : log_blind (attr f).
Proof.
  intros st st' [Hs Hd]. split; [|split; assumption].
  cbn. rewrite Hs. reflexivity.
Qed.

Lemma blind_read d a proj : log_blind (read d a proj).
Proof.
  intros st st' [Hs Hd]. split; [|split; assumption].
  cbn. rewrite Hd. reflexivity.
Qed.

Lemma blind_bind {A B} (m : M state A) (k : A -> M state B) :
  log_blind m -> (forall a, log_blind (k a)) -> log_blind (bind m k).
Proof.
  intros Hm Hk st st' Hw. unfold bind.
  destruct (Hm st st' Hw) as [Hr Hw1].
  destruct (m st) as [r st1], (m st') as [r' st1']. cbn in Hr, Hw1.
  subst r'. destruct r as [a | e |]; cbn; auto.
  apply (Hk a). exact Hw1.
Qed.

Lemma blind_pixel_offset p xsz : log_blind (pixel_offset p xsz).
Proof. destruct p; [apply blind_ret | apply blind_raise]. Qed.

Ltac blind :=
  repeat first
    [ apply blind_bind; [|intro]
    | apply blind_ret | apply blind_raise | apply blind_lift
    | apply blind_attr | apply blind_read | apply blind_pixel_offset ].

Lemma blind_alpha_1_calc : log_blind (_alpha_1_calc sp_pow2 sp_tan sp_nsolve).
Proof. unfold _alpha_1_calc, goal_x_1. blind. Qed.

Lemma blind_alpha_2_calc : log_blind (_alpha_2_calc sp_pow2 sp_tan sp_nsolve).
Proof. unfold _alpha_2_calc, goal_x_2. blind. Qed.

Lemma blind_step : log_blind (step sp_pow2 sp_tan sp_nsolve).
Proof.
  unfold step.
  apply blind_bind; [apply blind_alpha_1_calc | intro].
  apply blind_bind; [apply blind_alpha_2_calc | intro].
  apply blind_ret.
Qed.

(** [step] leaves the walker and the devices as they are. *)
Lemma step_same_world st :
  same_world st (snd (step sp_pow2 sp_tan sp_nsolve st)).
Proof.
  split; symmetry.
  - apply (selfless_bind (_alpha_1_calc sp_pow2 sp_tan sp_nsolve)).
    + apply selfless_alpha_1_calc.
    + intro a1. apply selfless_bind.
      * apply selfless_alpha_2_calc.
      * intro. apply selfless_ret.
  - apply (quiet_bind (_alpha_1_calc sp_pow2 sp_tan sp_nsolve)).
    + apply quiet_alpha_1_calc.
    + intro a1. apply quiet_bind.
      * apply quiet_alpha_2_calc.
      * intro. apply quiet_ret.
Qed.

(** The state after [n] calls of [step] in a row. *)
Lemma steps_same_world n st :
  same_world st (Nat.iter n (fun s => snd (step sp_pow2 sp_tan sp_nsolve s)) st).
Proof.
  induction n as [|n IH]; cbn [Nat.iter nat_rect].
  - apply same_world_refl.
  - destruct IH as [Hs Hd].
    destruct (step_same_world
                (Nat.iter n (fun s => snd (step sp_pow2 sp_tan sp_nsolve s)) st))
      as [Hs' Hd'].
    split; [exact (eq_trans Hs Hs') | exact (eq_trans Hd Hd')].
Qed.

(** X2: [step] makes no progress by being repeated: after any number of
    earlier calls of [step], a call returns the outcome the first call
    returned, a pair or the exception, and the walker's estimates and the
    devices are still those of the start. *)
Theorem step_repeats :
  forall n st,
    let st' := Nat.iter n (fun s => snd (step sp_pow2 sp_tan sp_nsolve s)) st in
    fst (step sp_pow2 sp_tan sp_nsolve st') = fst (step sp_pow2 sp_tan sp_nsolve st) /\
    self st' = self st /\
    devs st' = devs st.
Proof.
  intros n st st'.
  destruct (steps_same_world n st) as [Hs Hd]. fold st' in Hs, Hd.
  split; [|split; symmetry; assumption].
  symmetry. apply blind_step. split; assumption.
Qed.

End Probes.

(** ** IterWalker: [align] beyond the valid runs *)

Section AlignEdges.

Import Py IterWalk IterWalkSpec Frames.
Local Open Scope py_scope.

Variable sp_pow2 : float -> res float.
Variable sp_tan : float -> float.
Variable sp_nsolve : (float -> float) -> float -> res float.

Lemma keeps_of_selfless {A} (m : M state A) : selfless m -> keeps_config m.
Proof. intros H st. rewrite (H st). reflexivity. Qed.

Lemma keeps_bind {A B} (m : M state A) (k : A -> M state B) :
  keeps_config m -> (forall a, keeps_config (k a)) -> keeps_config (bind m k).
Proof.
  intros Hm Hk st. unfold bind.
  pose proof (Hm st) as Hs.
  destruct (m st) as [[a | e |] st1]; cbn in Hs; cbn; try assumption.
  rewrite (Hk a st1). assumption.
Qed.

Lemma keeps_assign_alpha_1 a : keeps_config (assign (fun w => with_alpha_1 w a)).
Proof. intro st. reflexivity. Qed.

Lemma keeps_assign_alpha_2 a : keeps_config (assign (fun w => with_alpha_2 w a)).
Proof. intro st. reflexivity. Qed.

Lemma keeps_align_body i : keeps_config (align_body sp_pow2 sp_tan sp_nsolve i).
Proof.
  unfold align_body.
  apply keeps_bind; [apply keeps_of_selfless, selfless_alpha_1_calc | intro].
  apply keeps_bind; [apply keeps_assign_alpha_1 | intro].
  apply keeps_bind; [apply keeps_of_selfless, selfless_alpha_2_calc | intro].
  apply keeps_assign_alpha_2.
Qed.

Lemma keeps_for_each {A} (l : list A) (body : A -> M state unit) :
  (forall x, keeps_config (body x)) -> keeps_config (for_each l body).
Proof.
  intro Hb. induction l as [|x l IH]; cbn [for_each].
  - intro st. reflexivity.
  - apply keeps_bind; [apply Hb | intro; exact IH].
Qed.

Lemma keeps_move_mirrors a1 a2 : keeps_config (_move_mirrors a1 a2).
Proof. intro st. reflexivity. Qed.

(** X3: whatever its arguments and its outcome, a pair or an exception,
    [align] leaves the solve mode and the budget of the walker as they
    were, and the targets it leaves are the ones it was given, or the
    stored ones where it was given None. *)
Theorem align_keeps_the_configuration :
  forall st p1' p2' mv,
    let st' := snd (align sp_pow2 sp_tan sp_nsolve p1' p2' mv st) in
    tan (self st') = tan (self st) /\
    max_n (self st') = max_n (self st) /\
    p1 (self st') = target (p1 (self st)) p1' /\
    p2 (self st') = target (p2 (self st)) p2'.
Proof.
  intros st p1' p2' mv st'. subst st'. rewrite align_unfold.
  match goal with
  | |- context [bind _ _ ?s] => set (st0 := s)
  end.
  assert (K : keeps_config
                (for_each (range (max_n (self st)))
                          (align_body sp_pow2 sp_tan sp_nsolve) ;;
                 (if is_True mv then
                    a1 <- attr _alpha_1 ;;
                    a2 <- attr _alpha_2 ;;
                    _move_mirrors a1 a2
                  else ret tt) ;;
                 a1 <- attr _alpha_1 ;;
                 a2 <- attr _alpha_2 ;;
                 ret (a1, a2))).
  { apply keeps_bind; [apply keeps_for_each, keeps_align_body | intro].
    apply keeps_bind.
    - destruct (is_True mv).
      + apply keeps_bind; [apply keeps_of_selfless, selfless_attr | intro].
        apply keeps_bind; [apply keeps_of_selfless, selfless_attr | intro].
        apply keeps_move_mirrors.
      + apply keeps_of_selfless, selfless_ret.
    - intro.
      apply keeps_bind; [apply keeps_of_selfless, selfless_attr | intro].
      apply keeps_bind; [apply keeps_of_selfless, selfless_attr | intro].
      apply keeps_of_selfless, selfless_ret. }
  specialize (K st0). unfold config in K. cbn [self st0] in K.
  destruct (with_targets_keeps (self st) p1' p2') as (Kt & Kn & _ & _).
  rewrite target_with_targets_1, target_with_targets_2, Kt, Kn in K.
  injection K as E1 E2 E3 E4. repeat split; assumption.
Qed.

(** The first index of a positive range. *)
Lemma range_pos n : (0 < n)%Z -> exists l, range n = 0%Z :: l.
Proof.
  intro H. unfold range.
  destruct (Z.to_nat n) as [|k] eqn:E.
  - apply (f_equal Z.of_nat) in E. rewrite Z2Nat.id in E.
    + subst n. inversion H.
    + apply Z.lt_le_incl, H.
  - eexists. reflexivity.
Qed.

(** The solve for mirror 1 with no target: [goal_x_1] raises at the
    subtraction, after the reads of the positions and of the pixel count. *)
Lemma alpha_1_calc_no_target st :
  p1 (self st) = None ->
  _alpha_1_calc sp_pow2 sp_tan sp_nsolve st
  = (Raise TypeError, after_reads st calc1_reads_before_target).
Proof.
  intro Hp.
  unfold _alpha_1_calc, goal_x_1, bind, read, attr, gets, lift; cbn.
  rewrite Hp. cbn.
  unfold after_reads, calc1_reads_before_target.
  repeat rewrite <- app_assoc. reflexivity.
Qed.

Lemma alpha_2_calc_no_target st :
  p2 (self st) = None ->
  _alpha_2_calc sp_pow2 sp_tan sp_nsolve st
  = (Raise TypeError, after_reads st calc2_reads_before_target).
Proof.
  intro Hq.
  unfold _alpha_2_calc, goal_x_2, bind, read, attr, gets, lift; cbn.
  rewrite Hq. cbn.
  unfold after_reads, calc2_reads_before_target.
  repeat rewrite <- app_assoc. reflexivity.
Qed.

(** [align] when the first solve of its loop raises. *)
Lemma align_first_solve_raises st p1' p2' mv e evs :
  (0 < max_n (self st))%Z ->
  _alpha_1_calc sp_pow2 sp_tan sp_nsolve
    {| self := with_targets (self st) p1' p2';
       devs := devs st; log := log st |}
  = (Raise e,
     {| self := with_targets (self st) p1' p2';
        devs := devs st; log := log st ++ evs |}) ->
  align sp_pow2 sp_tan sp_nsolve p1' p2' mv st
  = (Raise e,
     {| self := with_targets (self st) p1' p2';
        devs := devs st; log := log st ++ evs |}).
Proof.
  intros Hn Hc. rewrite align_unfold.
  destruct (range_pos _ Hn) as [l ->].
  cbn [for_each]. unfold align_body.
  apply bind_raise. apply bind_raise. apply bind_raise. exact Hc.
Qed.

End AlignEdges.

(** ** IterWalker: failed and repeated calls of [align] *)

Section AlignRuns.

Import Py IterWalk IterWalkSpec Frames.
Local Open Scope py_scope.

Variable sp_pow2 : float -> res float.
Variable sp_tan : float -> float.
Variable sp_nsolve : (float -> float) -> float -> res float.

(** X4: with a positive budget and no first target, stored or given,
    [align] raises TypeError in its first solve, before it reads the
    metres per pixel of the imager: the angle estimates are the ones held
    before the call, and nothing is written to the mirrors, whatever
    [move] is. *)
Theorem align_without_first_target :
  forall st p1' p2' mv,
    target (p1 (self st)) p1' = None ->
    (0 < max_n (self st))%Z ->
    let r := align sp_pow2 sp_tan sp_nsolve p1' p2' mv st in
    fst r = Raise TypeError /\
    _alpha_1 (self (snd r)) = _alpha_1 (self st) /\
    _alpha_2 (self (snd r)) = _alpha_2 (self st) /\
    devs (snd r) = devs st /\
    log (snd r) = log st ++ calc1_reads_before_target.
Proof.
  intros st p1' p2' mv Hp Hn r. subst r.
  destruct (with_targets_keeps (self st) p1' p2') as (_ & _ & K1 & K2).
  rewrite (align_first_solve_raises sp_pow2 sp_tan sp_nsolve st p1' p2' mv TypeError
             calc1_reads_before_target Hn).
  - cbn. repeat split; assumption.
  - apply (alpha_1_calc_no_target sp_pow2 sp_tan sp_nsolve
             {| self := with_targets (self st) p1' p2';
                devs := devs st; log := log st |}).
    cbn. rewrite target_with_targets_1. exact Hp.
Qed.

(** X5: a failure of the first solve of [align], the root finder's error
    among them, is the outcome of [align]: the exception is the one the
    solve raised, the angle estimates are the ones held before the call,
    and nothing is written to the mirrors, whatever [move] is. *)
Theorem align_propagates_a_failed_solve :
  forall st p1' p2' mv p e,
    target (p1 (self st)) p1' = Some p ->
    (0 < max_n (self st))%Z ->
    solve_1 sp_pow2 sp_tan sp_nsolve (devs st) (tan (self st)) p (_alpha_2 (self st))
    = Raise e ->
    let r := align sp_pow2 sp_tan sp_nsolve p1' p2' mv st in
    fst r = Raise e /\
    _alpha_1 (self (snd r)) = _alpha_1 (self st) /\
    _alpha_2 (self (snd r)) = _alpha_2 (self st) /\
    devs (snd r) = devs st /\
    log (snd r) = log st ++ calc1_reads.
Proof.
  intros st p1' p2' mv p e Hp Hn He r. subst r.
  destruct (with_targets_keeps (self st) p1' p2') as (Kt & _ & K1 & K2).
  rewrite (align_first_solve_raises sp_pow2 sp_tan sp_nsolve st p1' p2' mv e
             calc1_reads Hn).
  - cbn. repeat split; assumption.
  - rewrite (alpha_1_calc_run sp_pow2 sp_tan sp_nsolve
               {| self := with_targets (self st) p1' p2';
                  devs := devs st; log := log st |} p).
    + cbn [self devs]. rewrite Kt, K2, He. reflexivity.
    + cbn. rewrite target_with_targets_1. exact Hp.
Qed.

(** X6: with a positive budget, a first target and no second target,
    when the first solve returns an angle, [align] raises TypeError in the
    solve for mirror 2 of its first iteration.  By then it has replaced its
    estimate of mirror 1's angle by the angle just solved; the estimate of
    mirror 2's angle is the old one, and nothing is written to the
    mirrors. *)
Theorem align_without_second_target :
  forall st p1' p2' mv p a1,
    target (p1 (self st)) p1' = Some p ->
    target (p2 (self st)) p2' = None ->
    (0 < max_n (self st))%Z ->
    solve_1 sp_pow2 sp_tan sp_nsolve (devs st) (tan (self st)) p
            (_alpha_2 (self st)) = Ok a1 ->
    let r := align sp_pow2 sp_tan sp_nsolve p1' p2' mv st in
    fst r = Raise TypeError /\
    _alpha_1 (self (snd r)) = a1 /\
    _alpha_2 (self (snd r)) = _alpha_2 (self st) /\
    devs (snd r) = devs st /\
    log (snd r) = log st ++ calc1_reads ++ calc2_reads_before_target.
Proof.
  intros st p1' p2' mv p a1 Hp Hq Hn Hs r. subst r.
  destruct (with_targets_keeps (self st) p1' p2') as (Kt & _ & K1 & K2).
  rewrite align_unfold.
  destruct (range_pos _ Hn) as [l ->].
  cbn [for_each]. unfold align_body.
  match goal with
  | |- context [bind _ _ ?s] => set (st0 := s)
  end.
  assert (Hp0 : p1 (self st0) = Some p)
    by (cbn; rewrite target_with_targets_1; exact Hp).
  assert (Hs0 : solve_1 sp_pow2 sp_tan sp_nsolve (devs st0) (tan (self st0))
                        p (_alpha_2 (self st0)) = Ok a1)
    by (cbn; rewrite Kt, K2; exact Hs).
  assert (E : (a1 <- _alpha_1_calc sp_pow2 sp_tan sp_nsolve ;;
               assign (fun w => with_alpha_1 w a1) ;;
               a2 <- _alpha_2_calc sp_pow2 sp_tan sp_nsolve ;;
               assign (fun w => with_alpha_2 w a2)) st0
              = (Raise TypeError,
                 {| self := with_alpha_1 (self st0) a1;
                    devs := devs st0;
                    log := log st0 ++ calc1_reads
                           ++ calc2_reads_before_target |})).
  { rewrite (bind_ok _ _ _ _ _
               (eq_trans (alpha_1_calc_run sp_pow2 sp_tan sp_nsolve st0 p Hp0)
                         (f_equal (fun r => (r, _)) Hs0))).
    erewrite bind_ok; [|reflexivity].
    erewrite bind_raise; [reflexivity|].
    match goal with
    | |- _alpha_2_calc _ _ _ ?s = _ =>
        rewrite (alpha_2_calc_no_target sp_pow2 sp_tan sp_nsolve s)
    end.
    - unfold after_reads. cbn [self devs log]. rewrite <- app_assoc.
      reflexivity.
    - cbn. rewrite target_with_targets_2. exact Hq. }
  rewrite (bind_raise _ _ _ _ _ (bind_raise _ _ _ _ _ E)).
  subst st0. cbn [fst snd self devs log _alpha_1 _alpha_2 with_alpha_1].
  rewrite K2. repeat split; reflexivity.
Qed.

End AlignRuns.

Section AlignRunsOnTheBench.

Import Py IterWalk IterWalkSpec Frames.

Lemma align_without_first_target_witness :
  target (p1 (self (aimless 3))) None = None /\
  (0 < max_n (self (aimless 3)))%Z /\
  fst (align Bench.exact_pow2 Bench.no_tan Bench.no_nsolve None None (VBool true) (aimless 3))
  = Raise TypeError /\
  _alpha_1 (self (snd (align Bench.exact_pow2 Bench.no_tan Bench.no_nsolve None None
                             (VBool true) (aimless 3))))
  = _alpha_1 (self (aimless 3)) /\
  _alpha_2 (self (snd (align Bench.exact_pow2 Bench.no_tan Bench.no_nsolve None None
                             (VBool true) (aimless 3))))
  = _alpha_2 (self (aimless 3)) /\
  devs (snd (align Bench.exact_pow2 Bench.no_tan Bench.no_nsolve None None
                   (VBool true) (aimless 3)))
  = devs (aimless 3) /\
  log (snd (align Bench.exact_pow2 Bench.no_tan Bench.no_nsolve None None
                  (VBool true) (aimless 3)))
  = log (aimless 3) ++ calc1_reads_before_target.
Proof.
  assert (Hn : (0 < max_n (self (aimless 3)))%Z) by reflexivity.
  split; [reflexivity|]. split; [exact Hn|].
  exact (align_without_first_target Bench.exact_pow2 Bench.no_tan Bench.no_nsolve (aimless 3) None None (VBool true)
                                    eq_refl Hn).
Defined.

Lemma align_propagates_a_failed_solve_witness :
  target (p1 (self (rooting 3))) None = Some (-4)%float /\
  (0 < max_n (self (rooting 3)))%Z /\
  solve_1 Bench.exact_pow2 Bench.no_tan Bench.no_nsolve (devs (rooting 3))
          (tan (self (rooting 3))) (-4) (_alpha_2 (self (rooting 3)))
  = Raise SolverError /\
  fst (align Bench.exact_pow2 Bench.no_tan Bench.no_nsolve None None (VBool true) (rooting 3))
  = Raise SolverError /\
  _alpha_1 (self (snd (align Bench.exact_pow2 Bench.no_tan Bench.no_nsolve None None
                             (VBool true) (rooting 3))))
  = _alpha_1 (self (rooting 3)) /\
  _alpha_2 (self (snd (align Bench.exact_pow2 Bench.no_tan Bench.no_nsolve None None
                             (VBool true) (rooting 3))))
  = _alpha_2 (self (rooting 3)) /\
  devs (snd (align Bench.exact_pow2 Bench.no_tan Bench.no_nsolve None None
                   (VBool true) (rooting 3)))
  = devs (rooting 3) /\
  log (snd (align Bench.exact_pow2 Bench.no_tan Bench.no_nsolve None None
                  (VBool true) (rooting 3)))
  = log (rooting 3) ++ calc1_reads.
Proof.
  assert (Hn : (0 < max_n (self (rooting 3)))%Z) by reflexivity.
  split; [reflexivity|]. split; [exact Hn|]. split; [reflexivity|].
  exact (align_propagates_a_failed_solve Bench.exact_pow2 Bench.no_tan Bench.no_nsolve (rooting 3) None None (VBool true)
                                         (-4)%float SolverError
                                         eq_refl Hn eq_refl).
Defined.

Lemma align_without_second_target_witness :
  target (p1 (self (half_aimed 3))) None = Some (-4)%float /\
  target (p2 (self (half_aimed 3))) None = None /\
  (0 < max_n (self (half_aimed 3)))%Z /\
  solve_1 Bench.exact_pow2 Bench.no_tan Bench.no_nsolve (devs (half_aimed 3))
          (tan (self (half_aimed 3))) (-4) (_alpha_2 (self (half_aimed 3)))
  = Ok 2%float /\
  fst (align Bench.exact_pow2 Bench.no_tan Bench.no_nsolve None None (VBool true)
             (half_aimed 3))
  = Raise TypeError /\
  _alpha_1 (self (snd (align Bench.exact_pow2 Bench.no_tan Bench.no_nsolve None None
                             (VBool true) (half_aimed 3))))
  = 2%float /\
  _alpha_2 (self (snd (align Bench.exact_pow2 Bench.no_tan Bench.no_nsolve None None
                             (VBool true) (half_aimed 3))))
  = _alpha_2 (self (half_aimed 3)) /\
  devs (snd (align Bench.exact_pow2 Bench.no_tan Bench.no_nsolve None None
                   (VBool true) (half_aimed 3)))
  = devs (half_aimed 3) /\
  log (snd (align Bench.exact_pow2 Bench.no_tan Bench.no_nsolve None None
                  (VBool true) (half_aimed 3)))
  = log (half_aimed 3) ++ calc1_reads ++ calc2_reads_before_target.
Proof.
  assert (Hn : (0 < max_n (self (half_aimed 3)))%Z) by reflexivity.
  assert (Hs : solve_1 Bench.exact_pow2 Bench.no_tan Bench.no_nsolve
                       (devs (half_aimed 3)) (tan (self (half_aimed 3)))
                       (-4) (_alpha_2 (self (half_aimed 3))) = Ok 2%float)
    by (vm_compute; reflexivity).
  split; [reflexivity|]. split; [reflexivity|]. split; [exact Hn|].
  split; [exact Hs|].
  exact (align_without_second_target Bench.exact_pow2 Bench.no_tan
           Bench.no_nsolve (half_aimed 3) None None (VBool true) (-4)%float
           2%float eq_refl eq_refl Hn Hs).
Defined.

End AlignRunsOnTheBench.

(** ** IterWalker: successive calls of [align] *)

Section AlignTwice.

Import Py IterWalk IterWalkSpec Frames.
Local Open Scope py_scope.

Variable sp_pow2 : float -> res float.
Variable sp_tan : float -> float.
Variable sp_nsolve : (float -> float) -> float -> res float.

(** The state a call of [align] ends in when all its solves return. *)
Lemma align_run st p1' p2' mv p q a :
  target (p1 (self st)) p1' = Some p ->
  target (p2 (self st)) p2' = Some q ->
  refine_n sp_pow2 sp_tan sp_nsolve (Z.to_nat (max_n (self st))) (devs st)
           (tan (self st)) p q
           (_alpha_1 (self st), _alpha_2 (self st)) = Ok a ->
  align sp_pow2 sp_tan sp_nsolve p1' p2' mv st
  = (Ok a,
     {| self := with_alphas (with_targets (self st) p1' p2') a;
        devs := if is_True mv then committed (devs st) (fst a) (snd a)
                else devs st;
        log := log st ++ loop_reads (Z.to_nat (max_n (self st)))
               ++ (if is_True mv then commit_puts (fst a) (snd a) else []) |}).
Proof.
  intros Hp Hq Hr.
  rewrite align_unfold.
  destruct (with_targets_keeps (self st) p1' p2') as (Kt & Kn & K1 & K2).
  match goal with
  | |- context [bind _ _ ?s] => set (st0 := s)
  end.
  assert (Hp0 : p1 (self st0) = Some p)
    by (cbn; rewrite target_with_targets_1; exact Hp).
  assert (Hq0 : p2 (self st0) = Some q)
    by (cbn; rewrite target_with_targets_2; exact Hq).
  assert (Hr0 : refine_n sp_pow2 sp_tan sp_nsolve
                         (List.length (range (max_n (self st))))
                         (devs st0) (tan (self st0)) p q
                         (_alpha_1 (self st0), _alpha_2 (self st0)) = Ok a)
    by (rewrite length_range; cbn; rewrite Kt, K1, K2; exact Hr).
  rewrite (bind_ok _ _ _ _ _
             (loop_run sp_pow2 sp_tan sp_nsolve _ st0 p q a Hp0 Hq0 Hr0)).
  rewrite length_range. cbn [self devs log st0].
  clear Hr Hr0. destruct a as [a1 a2].
  destruct (is_True mv); cbn.
  - rewrite <- !app_assoc. reflexivity.
  - rewrite app_nil_r. reflexivity.
Qed.

(** The solves read the positions of the devices only: the angles the
    mirrors are at have no part in a refinement. *)
Lemma refine_n_committed n ds t p q a v1 v2 :
  refine_n sp_pow2 sp_tan sp_nsolve n (committed ds v1 v2) t p q a
  = refine_n sp_pow2 sp_tan sp_nsolve n ds t p q a.
Proof.
  revert a. induction n as [|n IH]; intro a; cbn [refine_n].
  - reflexivity.
  - assert (E : refine sp_pow2 sp_tan sp_nsolve (committed ds v1 v2) t p q a
                = refine sp_pow2 sp_tan sp_nsolve ds t p q a) by reflexivity.
    rewrite E.
    destruct (refine sp_pow2 sp_tan sp_nsolve ds t p q a) as [a' | e |];
      cbn [and_then]; [apply IH | reflexivity | reflexivity].
Qed.

Lemma refine_n_add n m ds t p q a :
  refine_n sp_pow2 sp_tan sp_nsolve (n + m) ds t p q a
  = (a' <~ refine_n sp_pow2 sp_tan sp_nsolve n ds t p q a ;;
     refine_n sp_pow2 sp_tan sp_nsolve m ds t p q a').
Proof.
  revert a. induction n as [|n IH]; intro a; cbn [refine_n Nat.add].
  - reflexivity.
  - destruct (refine sp_pow2 sp_tan sp_nsolve ds t p q a) as [a' | e |];
      cbn [and_then]; [apply IH | reflexivity | reflexivity].
Qed.

(** X7: a second [align] carries on where the first stopped.  When the
    solves of twice the budget of refinements return, a call of [align]
    without new targets that follows an [align], with [move] set or not,
    uses the targets of the first call and returns the pair refined twice
    the budget from the estimates held before the first call. *)
Theorem align_twice_refines_on :
  forall st p1' p2' mv mv' p q b,
    target (p1 (self st)) p1' = Some p ->
    target (p2 (self st)) p2' = Some q ->
    let n := Z.to_nat (max_n (self st)) in
    refine_n sp_pow2 sp_tan sp_nsolve (n + n) (devs st) (tan (self st)) p q
             (_alpha_1 (self st), _alpha_2 (self st)) = Ok b ->
    let st1 := snd (align sp_pow2 sp_tan sp_nsolve p1' p2' mv st) in
    fst (align sp_pow2 sp_tan sp_nsolve None None mv' st1) = Ok b.
Proof.
  intros st p1' p2' mv mv' p q b Hp Hq n Hr st1. subst st1.
  rewrite refine_n_add in Hr.
  apply and_then_Ok in Hr. destruct Hr as (a & Ha & Hb).
  rewrite (align_run st p1' p2' mv p q a Hp Hq Ha). cbn [snd].
  destruct (with_targets_keeps (self st) p1' p2') as (Kt & Kn & K1 & K2).
  match goal with
  | |- fst (align _ _ _ _ _ _ ?s) = _ => set (st1 := s)
  end.
  assert (Hp1 : target (p1 (self st1)) None = Some p)
    by (cbn; rewrite target_with_targets_1; exact Hp).
  assert (Hq1 : target (p2 (self st1)) None = Some q)
    by (cbn; rewrite target_with_targets_2; exact Hq).
  assert (Hb1 : refine_n sp_pow2 sp_tan sp_nsolve
                         (Z.to_nat (max_n (self st1))) (devs st1)
                         (tan (self st1)) p q
                         (_alpha_1 (self st1), _alpha_2 (self st1)) = Ok b).
  { subst st1. cbn [self devs tan max_n _alpha_1 _alpha_2 with_alphas
                         with_alpha_1 with_alpha_2].
    rewrite Kt, Kn. fold n.
    destruct (is_True mv); [rewrite refine_n_committed|];
      rewrite <- surjective_pairing; exact Hb. }
  rewrite (align_run st1 None None mv' p q b Hp1 Hq1 Hb1). reflexivity.
Qed.

(** X8: when [align] with [move] True returns a pair, each mirror's angle
    is the angle of the pair and so is the walker's estimate of it; the
    source, the positions of the mirrors and the imagers are as they were
    before the call. *)
Theorem align_commit_puts_mirrors_on_the_estimates :
  forall st p1' p2' a1 a2,
    fst (align sp_pow2 sp_tan sp_nsolve p1' p2' (VBool true) st) = Ok (a1, a2) ->
    let st' := snd (align sp_pow2 sp_tan sp_nsolve p1' p2' (VBool true) st) in
    m_alpha (mirror_1 (devs st')) = a1 /\
    m_alpha (mirror_2 (devs st')) = a2 /\
    _alpha_1 (self st') = a1 /\
    _alpha_2 (self st') = a2 /\
    positions (devs st') = positions (devs st).
Proof.
  intros st p1' p2' a1 a2. cbv zeta. rewrite align_unfold.
  match goal with
  | |- context [bind _ _ ?s] => set (st0 := s)
  end.
  pose proof (quiet_for_each (range (max_n (self st)))
                (align_body sp_pow2 sp_tan sp_nsolve)
                (quiet_align_body sp_pow2 sp_tan sp_nsolve) st0) as [Hd _].
  destruct (for_each (range (max_n (self st)))
              (align_body sp_pow2 sp_tan sp_nsolve) st0) as [[[] | e |] st1] eqn:E;
    cbn in Hd.
  - rewrite !(bind_ok _ _ _ _ _ E). cbn. intro H. injection H as <- <-.
    rewrite Hd. repeat split; reflexivity.
  - rewrite !(bind_raise _ _ _ _ _ E). cbn. discriminate.
  - rewrite !(bind_out_of_fuel _ _ _ _ E). cbn. discriminate.
Qed.

Lemma range_nonpos n : (n <= 0)%Z -> range n = [].
Proof.
  intro H. unfold range.
  destruct n as [|k|k]; try reflexivity.
  exfalso. apply H. reflexivity.
Qed.

Lemma committed_same ds :
  committed ds (m_alpha (mirror_1 ds)) (m_alpha (mirror_2 ds)) = ds.
Proof. destruct ds as [s [x1 z1 a1] [x2 z2 a2] i1 i2]. reflexivity. Qed.

(** X9: a walker built with a budget of 0, or a negative one, and not
    touched since returns from [align] the angles it read from the mirrors
    when it was built, and the devices are after the call what they were
    when it was built, whatever [move] and the targets are. *)
Theorem align_of_a_new_walker_without_budget :
  forall ds kw z p1' p2' mv,
    kw_max_n kw = Some z ->
    (z <= 0)%Z ->
    let r := align sp_pow2 sp_tan sp_nsolve p1' p2' mv (__init__ ds kw) in
    fst r = Ok (m_alpha (mirror_1 ds), m_alpha (mirror_2 ds)) /\
    devs (snd r) = ds.
Proof.
  intros ds kw z p1' p2' mv Hz Hle r. subst r.
  rewrite align_unfold.
  replace (max_n (self (__init__ ds kw))) with z
    by (cbn; rewrite Hz; reflexivity).
  rewrite (range_nonpos z Hle).
  destruct (with_targets_keeps (self (__init__ ds kw)) p1' p2')
    as (_ & _ & K1 & K2).
  cbn in K1, K2.
  destruct (is_True mv); cbn; rewrite K1, K2.
  - split; [reflexivity | apply committed_same].
  - split; reflexivity.
Qed.

End AlignTwice.

Section AlignTwiceOnTheBench.

Import Py IterWalk IterWalkSpec Frames Bench.
Local Open Scope float_scope.

Lemma align_twice_refines_on_witness :
  target (p1 (self (fresh 1))) None = Some (-4) /\
  target (p2 (self (fresh 1))) None = Some (-4) /\
  refine_n exact_pow2 no_tan no_nsolve 2 bench false (-4) (-4) (0, 0)
  = Ok (2, 2) /\
  fst (align exact_pow2 no_tan no_nsolve None None (VBool false)
             (snd (align exact_pow2 no_tan no_nsolve None None (VBool true)
                         (fresh 1))))
  = Ok (2, 2).
Proof.
  assert (R : refine_n exact_pow2 no_tan no_nsolve 2 bench false (-4) (-4)
                       (0, 0) = Ok (2, 2)) by (vm_compute; reflexivity).
  split; [reflexivity|]. split; [reflexivity|]. split; [exact R|].
  exact (align_twice_refines_on exact_pow2 no_tan no_nsolve (fresh 1) None
           None (VBool true) (VBool false) (-4) (-4) (2, 2)
           eq_refl eq_refl R).
Defined.

Lemma align_commit_puts_mirrors_on_the_estimates_witness :
  fst (align exact_pow2 no_tan no_nsolve None None (VBool true) (fresh 1)) = Ok (2, 2) /\
  m_alpha (mirror_1 (devs (snd (align exact_pow2 no_tan no_nsolve None None
                                      (VBool true) (fresh 1))))) = 2 /\
  m_alpha (mirror_2 (devs (snd (align exact_pow2 no_tan no_nsolve None None
                                      (VBool true) (fresh 1))))) = 2 /\
  _alpha_1 (self (snd (align exact_pow2 no_tan no_nsolve None None
                             (VBool true) (fresh 1)))) = 2 /\
  _alpha_2 (self (snd (align exact_pow2 no_tan no_nsolve None None
                             (VBool true) (fresh 1)))) = 2 /\
  positions (devs (snd (align exact_pow2 no_tan no_nsolve None None
                              (VBool true) (fresh 1))))
  = positions (devs (fresh 1)).
Proof.
  assert (H : fst (align exact_pow2 no_tan no_nsolve None None (VBool true) (fresh 1))
              = Ok (2, 2)) by (vm_compute; reflexivity).
  split; [exact H|].
  exact (align_commit_puts_mirrors_on_the_estimates
           exact_pow2 no_tan no_nsolve (fresh 1) None None 2 2 H).
Defined.

Lemma align_of_a_new_walker_without_budget_witness :
  kw_max_n (kw (-3)) = Some (-3)%Z /\
  (-3 <= 0)%Z /\
  fst (align exact_pow2 no_tan no_nsolve None None (VBool true) (__init__ turned_bench (kw (-3))))
  = Ok (1, 1) /\
  devs (snd (align exact_pow2 no_tan no_nsolve None None (VBool true)
                   (__init__ turned_bench (kw (-3)))))
  = turned_bench.
Proof.
  assert (Hle : (-3 <= 0)%Z) by discriminate.
  split; [reflexivity|]. split; [exact Hle|].
  exact (align_of_a_new_walker_without_budget
           exact_pow2 no_tan no_nsolve turned_bench (kw (-3)) (-3)%Z None None
           (VBool true) eq_refl Hle).
Defined.

End AlignTwiceOnTheBench.

(** ** Skywalker: the entry points *)

Section SkywalkerEntryPoints.

Import Py Skywalker SkyFrames.
Local Open Scope py_scope.
Local Open Scope string_scope.

Variable import_model : string -> res Model.
Variable build : res Model.

(** X11: in the global scope skywalker.py leaves, each of [walk],
    [_iterwalk], [_modelwalk] and [_modelbuild] raises the NameError of
    [kwargs] for every dispatcher, and [walk] for every mode; the
    dispatcher is not changed and no collaborator is called. *)
Theorem every_entry_point_raises_NameError :
  forall fuel mode st,
    walk module_globals import_model build fuel mode st
    = (Raise (NameError "kwargs"), st) /\
    _iterwalk module_globals fuel st = (Raise (NameError "kwargs"), st) /\
    _modelwalk module_globals import_model st
    = (Raise (NameError "kwargs"), st) /\
    _modelbuild module_globals build st = (Raise (NameError "kwargs"), st).
Proof.
  intros. repeat split.
Qed.

End SkywalkerEntryPoints.

(** ** Skywalker: with [kwargs] bound *)

Section SkywalkerModes.

Import Py Skywalker SkyFrames.
Local Open Scope py_scope.
Local Open Scope string_scope.

Variable g : globals.
Variable import_model : string -> res Model.
Variable build : res Model.

(** [walk] stores what [kwargs] holds and then dispatches on the mode. *)
Lemma walk_enter kw fuel mode st :
  g_kwargs g = Some kw ->
  walk g import_model build fuel mode st
  = dispatch g import_model build fuel mode (entered kw st).
Proof.
  intro Hg. unfold walk, global_kwargs, dispatch. rewrite Hg.
  repeat (erewrite bind_ok; [|reflexivity]).
  destruct (mode =? "iter"); [reflexivity|].
  destruct (mode =? "model"); [|reflexivity].
  erewrite bind_ok; [|reflexivity].
  unfold entered, reset. cbn.
  destruct (kw_load_model kw); reflexivity.
Qed.

(** X12: with [kwargs] bound, [walk] in mode auto raises
    NotImplementedError and [walk] in a mode that is none of iter, model,
    build and auto raises CNCException; in both cases no collaborator is
    called, and the dispatcher has by then stored what [kwargs] holds. *)
Theorem walk_rejects_other_modes :
  forall kw fuel mode st,
    g_kwargs g = Some kw ->
    mode <> "iter" -> mode <> "model" -> mode <> "build" ->
    walk g import_model build fuel mode st
    = (Raise (if mode =? "auto" then NotImplementedError else CNCException),
       entered kw st).
Proof.
  intros kw fuel mode st Hg Hi Hm Hb.
  rewrite (walk_enter kw fuel mode st Hg). unfold dispatch.
  apply String.eqb_neq in Hi, Hm, Hb. rewrite Hi, Hm, Hb.
  destruct (mode =? "auto"); reflexivity.
Qed.

Lemma kt_ret {A} (a : A) : keeps_targets (@ret state A a).
Proof. intro st. split; reflexivity. Qed.

Lemma kt_raise {A} e : keeps_targets (@raise state A e).
Proof. intro st. split; reflexivity. Qed.

Lemma kt_lift {A} (r : res A) : keeps_targets (@lift state A r).
Proof. intro st. split; reflexivity. Qed.

Lemma kt_gets {A} (f : state -> A) : keeps_targets (gets f).
Proof. intro st. split; reflexivity. Qed.

Lemma kt_emit e : keeps_targets (emit e).
Proof. intro st. split; reflexivity. Qed.

Lemma kt_assign f :
  (forall s, p1 (f s) = p1 s /\ p2 (f s) = p2 s) ->
  keeps_targets (assign f).
Proof. intros H st. apply H. Qed.

Lemma kt_bind {A B} (m : M state A) (k : A -> M state B) :
  keeps_targets m -> (forall a, keeps_targets (k a)) ->
  keeps_targets (bind m k).
Proof.
  intros Hm Hk st. unfold bind.
  pose proof (Hm st) as [H1 H2].
  destruct (m st) as [[a | e |] st1]; cbn in H1, H2; cbn;
    try (split; assumption).
  destruct (Hk a st1) as [H1' H2']. split; congruence.
Qed.

Lemma kt_while fuel (cond : M state bool) (body : M state unit) :
  keeps_targets cond -> keeps_targets body ->
  keeps_targets (while fuel cond body).
Proof.
  intros Hc Hb. induction fuel as [|fuel IH]; cbn [while].
  - intro st. split; reflexivity.
  - apply kt_bind; [exact Hc | intros [|]].
    + apply kt_bind; [exact Hb | intro; exact IH].
    + apply kt_ret.
Qed.

Ltac targets :=
  repeat first
    [ apply kt_bind; [|intro]
    | apply kt_ret | apply kt_raise | apply kt_lift | apply kt_emit
    | apply kt_gets
    | apply kt_assign; intro; split; reflexivity
    | match goal with
      | |- keeps_targets (match ?x with _ => _ end) => destruct x
      | |- keeps_targets (if ?x then _ else _) => destruct x
      end ].

Lemma kt_iterwalk fuel : keeps_targets (_iterwalk g fuel).
Proof.
  unfold _iterwalk, global_kwargs, new_IterWalker, attr. targets.
  apply kt_while; targets.
Qed.

Lemma kt_modelwalk : keeps_targets (_modelwalk g import_model).
Proof.
  unfold _modelwalk, global_kwargs, new_ModelWalker, _load,
    _set_goal_points, attr.
  targets.
Qed.

Lemma kt_modelbuild : keeps_targets (_modelbuild g build).
Proof.
  unfold _modelbuild, global_kwargs, new_ModelWalker, attr. targets.
Qed.

(** X13: with [kwargs] bound, [walk] replaces the dispatcher's targets by
    what [kwargs] holds under p1 and p2, and by 0 where it holds nothing:
    whatever the mode and the outcome, the targets given to the
    constructor are gone after [walk]. *)
Theorem walk_resets_the_targets :
  forall kw fuel mode st,
    g_kwargs g = Some kw ->
    let st' := snd (walk g import_model build fuel mode st) in
    p1 (self st') = get (kw_p1 kw) 0%float /\
    p2 (self st') = get (kw_p2 kw) 0%float.
Proof.
  intros kw fuel mode st Hg st'. subst st'.
  rewrite (walk_enter kw fuel mode st Hg).
  assert (K : keeps_targets (dispatch g import_model build fuel mode)).
  { unfold dispatch.
    destruct (mode =? "iter"); [apply kt_iterwalk|].
    destruct (mode =? "model"); [apply kt_modelwalk|].
    destruct (mode =? "build"); [apply kt_modelbuild|].
    destruct (mode =? "auto"); apply kt_raise. }
  destruct (K (entered kw st)) as [H1 H2].
  rewrite H1, H2. split; reflexivity.
Qed.

(** X14: [_converged] never answers: the comparison of the centroid pair
    with the targets is an array of two booleans, whose truth value numpy
    refuses, so the method raises ValueError once it has read the
    centroids, whether they are at the targets or not. *)
Theorem converged_always_raises :
  forall st,
    _converged st = (Raise ValueError, after st (self st) [ReadCentroids]).
Proof.
  intro st. destruct st as [s c lg]. reflexivity.
Qed.

(** X15: with [kwargs] bound, a model at hand, no request to load one and
    a model walker at hand or its class bound, [_modelwalk] makes exactly
    one call, a model step that moves; the model is the one that was at
    hand and the targets are untouched. *)
Theorem modelwalk_takes_one_step :
  forall kw st m o,
    g_kwargs g = Some kw ->
    get (kw_model kw) (model (self st)) = Some m ->
    requested (get (kw_load_model kw) (load_model (self st))) = false ->
    walker_at_hand g (get (kw_model_walker kw) (model_walker (self st)))
    = Some o ->
    let r := _modelwalk g import_model st in
    fst r = Ok tt /\
    log (snd r) = (log st ++ [ModelStep true])%list /\
    model (self (snd r)) = Some m /\
    model_walker (self (snd r)) = Some o /\
    p1 (self (snd r)) = p1 (self st) /\
    p2 (self (snd r)) = p2 (self st).
Proof.
  intros kw st m o Hg Hm Hl Hw r. subst r.
  unfold _modelwalk, global_kwargs, new_ModelWalker. rewrite Hg.
  unfold bind, ret, raise, assign, modify, attr, gets, emit; cbn.
  rewrite Hl, Hm. cbn.
  unfold walker_at_hand in Hw.
  destruct (get (kw_model_walker kw) (model_walker (self st))) as [w|].
  - injection Hw as <-. cbn. repeat split; reflexivity.
  - destruct (g_ModelWalker g); [|discriminate].
    injection Hw as <-. cbn. repeat split; reflexivity.
Qed.

(** X16: with [kwargs] bound and a request to load a named model that
    imports, [_modelwalk] imports it and then takes exactly one model step
    that moves.  The model it keeps is the imported one with the
    dispatcher's targets stored on it, whatever model was at hand. *)
Theorem modelwalk_loads_on_request :
  forall kw st name m' o,
    g_kwargs g = Some kw ->
    get (kw_load_model kw) (load_model (self st)) = Some name ->
    name <> "" ->
    import_model name = Ok m' ->
    walker_at_hand g (get (kw_model_walker kw) (model_walker (self st)))
    = Some o ->
    let r := _modelwalk g import_model st in
    fst r = Ok tt /\
    log (snd r) = (log st ++ [ImportModel name; ModelStep true])%list /\
    model (self (snd r))
    = Some {| model_id := model_id m';
              model_p1 := p1 (self st);
              model_p2 := p2 (self st) |}.
Proof.
  intros kw st name m' o Hg Hl Hn Hi Hw r. subst r.
  unfold _modelwalk, global_kwargs, new_ModelWalker, _load,
    _set_goal_points.
  rewrite Hg.
  unfold bind, ret, raise, lift, assign, modify, attr, gets, emit; cbn.
  rewrite Hl. cbn.
  apply String.eqb_neq in Hn. rewrite Hn. cbn. rewrite Hi. cbn.
  unfold walker_at_hand in Hw.
  destruct (get (kw_model_walker kw) (model_walker (self st))) as [w|].
  - cbn. rewrite <- app_assoc. repeat split; reflexivity.
  - destruct (g_ModelWalker g); [|discriminate].
    cbn. rewrite <- app_assoc. repeat split; reflexivity.
Qed.

(** X17: with [kwargs] bound, when the import of the requested model
    raises, [_modelwalk] raises the same exception after the import and
    takes no model step. *)
Theorem modelwalk_propagates_a_failed_import :
  forall kw st name e,
    g_kwargs g = Some kw ->
    get (kw_load_model kw) (load_model (self st)) = Some name ->
    name <> "" ->
    import_model name = Raise e ->
    let r := _modelwalk g import_model st in
    fst r = Raise e /\
    log (snd r) = (log st ++ [ImportModel name])%list /\
    model (self (snd r)) = get (kw_model kw) (model (self st)).
Proof.
  intros kw st name e Hg Hl Hn Hi r. subst r.
  unfold _modelwalk, global_kwargs, _load. rewrite Hg.
  unfold bind, ret, raise, lift, assign, modify, attr, gets, emit; cbn.
  rewrite Hl. cbn.
  apply String.eqb_neq in Hn. rewrite Hn. cbn. rewrite Hi. cbn.
  repeat split; reflexivity.
Qed.

(** X18: with [kwargs] bound, a builder that builds and a model walker at
    hand or its class bound, [_modelbuild] makes exactly two calls, the
    build and then one model step that moves, and keeps the model built,
    as the builder returned it. *)
Theorem modelbuild_builds_then_steps :
  forall kw st m o,
    g_kwargs g = Some kw ->
    build = Ok m ->
    walker_at_hand g (model_walker (self st)) = Some o ->
    let r := _modelbuild g build st in
    fst r = Ok tt /\
    log (snd r) = (log st ++ [Build; ModelStep true])%list /\
    model (self (snd r)) = Some m /\
    model_walker (self (snd r)) = Some o.
Proof.
  intros kw st m o Hg Hb Hw r. subst r.
  unfold _modelbuild, global_kwargs, new_ModelWalker. rewrite Hg, Hb.
  unfold bind, ret, raise, lift, assign, modify, attr, gets, emit; cbn.
  unfold walker_at_hand in Hw.
  destruct (get (kw_model_builder kw) (model_builder (self st))) as [b|];
    cbn;
    (destruct (model_walker (self st)) as [w|] eqn:E;
     [ injection Hw as <-
     | destruct (g_ModelWalker g); [injection Hw as <- | discriminate] ]);
    cbn; rewrite ?E; cbn; rewrite <- app_assoc; repeat split;
    try reflexivity; exact E.
Qed.

(** X19: with [kwargs] bound, when the build raises, [_modelbuild] raises
    the same exception after the build, takes no model step and keeps the
    model it had. *)
Theorem modelbuild_propagates_a_failed_build :
  forall kw st e,
    g_kwargs g = Some kw ->
    build = Raise e ->
    let r := _modelbuild g build st in
    fst r = Raise e /\
    log (snd r) = (log st ++ [Build])%list /\
    model (self (snd r)) = model (self st).
Proof.
  intros kw st e Hg Hb r. subst r.
  unfold _modelbuild, global_kwargs. rewrite Hg, Hb.
  unfold bind, ret, raise, lift, assign, modify, attr, gets, emit; cbn.
  destruct (get (kw_model_builder kw) (model_builder (self st))) as [b|];
    cbn; repeat split; reflexivity.
Qed.

(** X20: with [kwargs] bound but the class ModelWalker unbound, as in
    skywalker.py, a dispatcher that has a model and no model walker cannot
    take the model step: [_modelwalk] raises the NameError of ModelWalker
    and calls no collaborator. *)
Theorem modelwalk_cannot_make_its_walker :
  forall kw st m,
    g_kwargs g = Some kw ->
    g_ModelWalker g = false ->
    get (kw_model kw) (model (self st)) = Some m ->
    requested (get (kw_load_model kw) (load_model (self st))) = false ->
    get (kw_model_walker kw) (model_walker (self st)) = None ->
    let r := _modelwalk g import_model st in
    fst r = Raise (NameError "ModelWalker") /\
    log (snd r) = log st.
Proof.
  intros kw st m Hg Hc Hm Hl Hw r. subst r.
  unfold _modelwalk, global_kwargs, new_ModelWalker. rewrite Hg, Hc.
  unfold bind, ret, raise, assign, modify, attr, gets, emit; cbn.
  rewrite Hl, Hm. cbn. rewrite Hw. cbn. split; reflexivity.
Qed.

(** X21: [_iterwalk] cannot make its own iter walker.  With [kwargs]
    bound and no iter walker at hand it raises, the NameError of
    IterWalker where the class is unbound and TypeError where it is bound,
    the call passing two positional arguments where the class takes five;
    no collaborator is called. *)
Theorem iterwalk_cannot_make_its_walker :
  forall kw fuel st,
    g_kwargs g = Some kw ->
    get (kw_iter_walker kw) (iter_walker (self st)) = None ->
    let r := _iterwalk g fuel st in
    fst r = Raise (if g_IterWalker g then TypeError
                   else NameError "IterWalker") /\
    log (snd r) = log st.
Proof.
  intros kw fuel st Hg Hw r. subst r.
  unfold _iterwalk, global_kwargs, new_IterWalker. rewrite Hg.
  unfold bind, ret, raise, assign, modify, attr, gets; cbn.
  rewrite Hw. destruct (g_IterWalker g); split; reflexivity.
Qed.

(** X22: with [kwargs] bound and an iter walker at hand, [_iterwalk]
    returns on its first test of the loop condition, for every positive
    fuel: it calls nothing, reads no centroid, and changes nothing but the
    iter walker it stores. *)
Theorem iterwalk_returns_at_once :
  forall kw fuel st o,
    g_kwargs g = Some kw ->
    get (kw_iter_walker kw) (iter_walker (self st)) = Some o ->
    _iterwalk g (S fuel) st
    = (Ok tt, after st (with_iter_walker (self st) (Some o)) []).
Proof.
  intros kw fuel st o Hg Hw.
  unfold _iterwalk, global_kwargs. rewrite Hg.
  unfold bind, ret, raise, assign, modify, attr, gets; cbn.
  rewrite Hw. cbn. unfold after. rewrite app_nil_r. reflexivity.
Qed.

End SkywalkerModes.

Section SkywalkerModesOnTheBench.

Import Py Skywalker SkyFrames.
Local Open Scope string_scope.

Lemma walk_rejects_other_modes_witness :
  g_kwargs Bench.patched_globals = Some no_kwargs /\
  "dance" <> "iter" /\ "dance" <> "model" /\ "dance" <> "build" /\
  walk Bench.patched_globals Bench.no_import Bench.no_build 1 "dance" aimed
  = (Raise CNCException, entered no_kwargs aimed).
Proof.
  assert (Hi : "dance" <> "iter") by discriminate.
  assert (Hm : "dance" <> "model") by discriminate.
  assert (Hb : "dance" <> "build") by discriminate.
  split; [reflexivity|]. split; [exact Hi|]. split; [exact Hm|].
  split; [exact Hb|].
  exact (walk_rejects_other_modes Bench.patched_globals Bench.no_import
           Bench.no_build no_kwargs 1 "dance" aimed eq_refl Hi Hm Hb).
Defined.

Lemma walk_resets_the_targets_witness :
  g_kwargs Bench.patched_globals = Some no_kwargs /\
  p1 (self aimed) = 5%float /\
  p2 (self aimed) = 6%float /\
  p1 (self (snd (walk Bench.patched_globals Bench.no_import Bench.no_build
                      1 "auto" aimed))) = 0%float /\
  p2 (self (snd (walk Bench.patched_globals Bench.no_import Bench.no_build
                      1 "auto" aimed))) = 0%float.
Proof.
  split; [reflexivity|]. split; [reflexivity|]. split; [reflexivity|].
  exact (walk_resets_the_targets Bench.patched_globals Bench.no_import
           Bench.no_build no_kwargs 1 "auto" aimed eq_refl).
Defined.

Lemma modelwalk_takes_one_step_witness :
  g_kwargs Bench.patched_globals = Some no_kwargs /\
  get (kw_model no_kwargs) (model (self (holding saved))) = Some saved /\
  requested (get (kw_load_model no_kwargs) (load_model (self (holding saved))))
  = false /\
  walker_at_hand Bench.patched_globals
    (get (kw_model_walker no_kwargs) (model_walker (self (holding saved))))
  = Some (Instance "ModelWalker") /\
  (let r := _modelwalk Bench.patched_globals Bench.no_import (holding saved) in
   fst r = Ok tt /\
   log (snd r) = (log (holding saved) ++ [ModelStep true])%list /\
   model (self (snd r)) = Some saved /\
   model_walker (self (snd r)) = Some (Instance "ModelWalker") /\
   p1 (self (snd r)) = p1 (self (holding saved)) /\
   p2 (self (snd r)) = p2 (self (holding saved))).
Proof.
  split; [reflexivity|]. split; [reflexivity|]. split; [reflexivity|].
  split; [reflexivity|].
  exact (modelwalk_takes_one_step Bench.patched_globals Bench.no_import
           no_kwargs (holding saved) saved (Instance "ModelWalker")
           eq_refl eq_refl eq_refl eq_refl).
Defined.

Lemma modelwalk_loads_on_request_witness :
  g_kwargs Bench.patched_globals = Some no_kwargs /\
  get (kw_load_model no_kwargs)
      (load_model (self (Bench.sky (Some saved) (Some "saved"))))
  = Some "saved" /\
  "saved" <> "" /\
  import_saved "saved" = Ok saved /\
  walker_at_hand Bench.patched_globals
    (get (kw_model_walker no_kwargs)
         (model_walker (self (Bench.sky (Some saved) (Some "saved")))))
  = Some (Instance "ModelWalker") /\
  (let r := _modelwalk Bench.patched_globals import_saved
                       (Bench.sky (Some saved) (Some "saved")) in
   fst r = Ok tt /\
   log (snd r)
   = (log (Bench.sky (Some saved) (Some "saved"))
      ++ [ImportModel "saved"; ModelStep true])%list /\
   model (self (snd r))
   = Some {| model_id := "saved"; model_p1 := 0; model_p2 := 0 |}).
Proof.
  assert (Hn : "saved" <> "") by discriminate.
  split; [reflexivity|]. split; [reflexivity|]. split; [exact Hn|].
  split; [reflexivity|]. split; [reflexivity|].
  exact (modelwalk_loads_on_request Bench.patched_globals import_saved
           no_kwargs (Bench.sky (Some saved) (Some "saved")) "saved" saved
           (Instance "ModelWalker") eq_refl eq_refl Hn eq_refl eq_refl).
Defined.

Lemma modelwalk_propagates_a_failed_import_witness :
  g_kwargs Bench.patched_globals = Some no_kwargs /\
  get (kw_load_model no_kwargs)
      (load_model (self (Bench.sky (Some saved) (Some "saved"))))
  = Some "saved" /\
  "saved" <> "" /\
  Bench.no_import "saved" = Raise ImportError /\
  (let r := _modelwalk Bench.patched_globals Bench.no_import
                       (Bench.sky (Some saved) (Some "saved")) in
   fst r = Raise ImportError /\
   log (snd r)
   = (log (Bench.sky (Some saved) (Some "saved"))
      ++ [ImportModel "saved"])%list /\
   model (self (snd r))
   = get (kw_model no_kwargs)
         (model (self (Bench.sky (Some saved) (Some "saved"))))).
Proof.
  assert (Hn : "saved" <> "") by discriminate.
  split; [reflexivity|]. split; [reflexivity|]. split; [exact Hn|].
  split; [reflexivity|].
  exact (modelwalk_propagates_a_failed_import Bench.patched_globals
           Bench.no_import no_kwargs (Bench.sky (Some saved) (Some "saved"))
           "saved" ImportError eq_refl eq_refl Hn eq_refl).
Defined.

Lemma modelbuild_builds_then_steps_witness :
  g_kwargs Bench.patched_globals = Some no_kwargs /\
  Ok saved = Ok saved /\
  walker_at_hand Bench.patched_globals (model_walker (self alone))
  = Some (Instance "ModelWalker") /\
  (let r := _modelbuild Bench.patched_globals (Ok saved) alone in
   fst r = Ok tt /\
   log (snd r) = (log alone ++ [Build; ModelStep true])%list /\
   model (self (snd r)) = Some saved /\
   model_walker (self (snd r)) = Some (Instance "ModelWalker")).
Proof.
  split; [reflexivity|]. split; [reflexivity|]. split; [reflexivity|].
  exact (modelbuild_builds_then_steps Bench.patched_globals (Ok saved)
           no_kwargs alone saved (Instance "ModelWalker")
           eq_refl eq_refl eq_refl).
Defined.

Lemma modelbuild_propagates_a_failed_build_witness :
  g_kwargs Bench.patched_globals = Some no_kwargs /\
  Bench.no_build = Raise ValueError /\
  (let r := _modelbuild Bench.patched_globals Bench.no_build
                        (holding saved) in
   fst r = Raise ValueError /\
   log (snd r) = (log (holding saved) ++ [Build])%list /\
   model (self (snd r)) = model (self (holding saved))).
Proof.
  split; [reflexivity|]. split; [reflexivity|].
  exact (modelbuild_propagates_a_failed_build Bench.patched_globals
           Bench.no_build no_kwargs (holding saved) ValueError
           eq_refl eq_refl).
Defined.

Lemma modelwalk_cannot_make_its_walker_witness :
  g_kwargs kwargs_only = Some no_kwargs /\
  g_ModelWalker kwargs_only = false /\
  get (kw_model no_kwargs) (model (self (holding saved))) = Some saved /\
  requested (get (kw_load_model no_kwargs) (load_model (self (holding saved))))
  = false /\
  get (kw_model_walker no_kwargs) (model_walker (self (holding saved)))
  = None /\
  (let r := _modelwalk kwargs_only Bench.no_import (holding saved) in
   fst r = Raise (NameError "ModelWalker") /\
   log (snd r) = log (holding saved)).
Proof.
  split; [reflexivity|]. split; [reflexivity|]. split; [reflexivity|].
  split; [reflexivity|]. split; [reflexivity|].
  exact (modelwalk_cannot_make_its_walker kwargs_only Bench.no_import
           no_kwargs (holding saved) saved
           eq_refl eq_refl eq_refl eq_refl eq_refl).
Defined.

Lemma iterwalk_cannot_make_its_walker_witness :
  g_kwargs kwargs_only = Some no_kwargs /\
  get (kw_iter_walker no_kwargs) (iter_walker (self alone)) = None /\
  (let r := _iterwalk kwargs_only 5 alone in
   fst r = Raise (NameError "IterWalker") /\
   log (snd r) = log alone).
Proof.
  split; [reflexivity|]. split; [reflexivity|].
  exact (iterwalk_cannot_make_its_walker kwargs_only no_kwargs 5 alone
           eq_refl eq_refl).
Defined.

Lemma iterwalk_returns_at_once_witness :
  g_kwargs Bench.patched_globals = Some no_kwargs /\
  get (kw_iter_walker no_kwargs) (iter_walker (self (Bench.sky None None)))
  = Some (Instance "IterWalker") /\
  centroids_match (Bench.sky None None) = false /\
  _iterwalk Bench.patched_globals 1 (Bench.sky None None)
  = (Ok tt,
     after (Bench.sky None None)
           (with_iter_walker (self (Bench.sky None None))
                             (Some (Instance "IterWalker"))) []).
Proof.
  split; [reflexivity|]. split; [reflexivity|]. split; [reflexivity|].
  exact (iterwalk_returns_at_once Bench.patched_globals no_kwargs 0
           (Bench.sky None None) (Instance "IterWalker") eq_refl eq_refl).
Defined.

Lemma walk_model_without_model_witness :
  g_kwargs Bench.patched_globals = Some no_kwargs /\
  get (kw_model no_kwargs) (model (self alone)) = None /\
  requested (get (kw_load_model no_kwargs) (load_model (self alone)))
  = false /\
  fst (walk Bench.patched_globals Bench.no_import Bench.no_build
            1 "model" alone) = Raise CNCException /\
  log (snd (walk Bench.patched_globals Bench.no_import Bench.no_build
                 1 "model" alone)) = log alone.
Proof.
  split; [reflexivity|]. split; [reflexivity|]. split; [reflexivity|].
  exact (walk_model_without_model Bench.no_import Bench.no_build
           Bench.patched_globals no_kwargs 1 alone
           eq_refl eq_refl eq_refl).
Defined.

End SkywalkerModesOnTheBench.

Section StepOnTheBench.

Import Py IterWalk IterWalkSpec Bench.
Local Open Scope float_scope.

Lemma step_run_witness :
  p1 (self (fresh 1)) = Some (-4) /\
  p2 (self (fresh 1)) = Some (-4) /\
  solve_1 exact_pow2 no_tan no_nsolve (devs (fresh 1)) (tan (self (fresh 1)))
          (-4) (_alpha_2 (self (fresh 1))) = Ok 2 /\
  solve_2 exact_pow2 no_tan no_nsolve (devs (fresh 1)) (tan (self (fresh 1)))
          (-4) (_alpha_1 (self (fresh 1))) = Ok (-1) /\
  fst (step exact_pow2 no_tan no_nsolve (fresh 1))
  = (a1 <~ solve_1 exact_pow2 no_tan no_nsolve (devs (fresh 1))
                   (tan (self (fresh 1))) (-4) (_alpha_2 (self (fresh 1))) ;;
     a2 <~ solve_2 exact_pow2 no_tan no_nsolve (devs (fresh 1))
                   (tan (self (fresh 1))) (-4) (_alpha_1 (self (fresh 1))) ;;
     Ok (a1, a2))%py /\
  step exact_pow2 no_tan no_nsolve (fresh 1)
  = (Ok (2, -1), after_reads (fresh 1) (calc1_reads ++ calc2_reads)).
Proof.
  assert (S1 : solve_1 exact_pow2 no_tan no_nsolve (devs (fresh 1))
                       (tan (self (fresh 1))) (-4)
                       (_alpha_2 (self (fresh 1))) = Ok 2)
    by (vm_compute; reflexivity).
  assert (S2 : solve_2 exact_pow2 no_tan no_nsolve (devs (fresh 1))
                       (tan (self (fresh 1))) (-4)
                       (_alpha_1 (self (fresh 1))) = Ok (-1))
    by (vm_compute; reflexivity).
  split; [reflexivity|]. split; [reflexivity|].
  split; [exact S1|]. split; [exact S2|].
  split.
  - exact (proj1 (step_run exact_pow2 no_tan no_nsolve (fresh 1) (-4) (-4)
                           eq_refl eq_refl)).
  - exact (proj2 (step_run exact_pow2 no_tan no_nsolve (fresh 1) (-4) (-4)
                           eq_refl eq_refl) 2 (-1) S1 S2).
Defined.

End StepOnTheBench.
